(** * Restriction-enzyme digestion: a shallow embedding of [python.py]

    The development follows the two classes of the program,
    [RestrictionEnzyme] and [DNADigest].

    - A Python string is a list of 8-bit characters; [upper] changes the
      letters a-z and leaves every other character as it is.
    - A Python integer is a [Z]; an absent or [None] argument is an
      [option].
    - A call either returns a value or raises the [ValueError] of
      [find_restriction_sites]: the type [outcome] carries the value or the
      message of the error.
    - A dictionary returned by a method is a record with one field per key;
      a key that one return statement sets and another leaves out is an
      [option] field.
    - A loop is a fold over its list, on the variables the loop updates.
    - The interactive layer ([get_user_input], the printing functions and
      [main]) reads the standard input as a list of lines and writes a list
      of events, one for each [print] call and each prompt.  The loops of
      [get_user_input] are a transition system over its [input] calls, run
      over the lines that are left; the built-in [int] is a parameter. *)

From Stdlib Require Import ZArith Ascii String.
From stdpp Require Import base decidable list list_numbers sorting gmap sets strings pretty.

Local Open Scope Z_scope.

(** ** Strings *)

Abbreviation str := (list ascii).

Definition lit (s : string) : str := list_ascii_of_string s.

(** [len(s)] *)
Definition len {A} (s : list A) : Z := Z.of_nat (length s).

(** One character of [str.upper()]: a letter a-z moves to A-Z. *)
Definition upper_char (c : ascii) : ascii :=
  let n := nat_of_ascii c in
  if ((97 <=? n) && (n <=? 122))%nat then ascii_of_nat (n - 32) else c.

(** [s.upper()] *)
Definition upper (s : str) : str := upper_char <$> s.

(** [s.replace(c, '')] for a one-character [c] *)
Definition remove_char (c : ascii) (s : str) : str := filter (λ x, x ≠ c) s.

Definition space : ascii := " "%char.
Definition newline : ascii := "010"%char.
Definition tab : ascii := "009"%char.

(** [s.upper().replace(' ', '').replace('\n', '').replace('\t', '')] *)
Definition normalize (s : str) : str :=
  remove_char tab (remove_char newline (remove_char space (upper s))).

(** An index of a slice, as Python resolves it against a length [n]:
    a negative index counts from the end, and the result is clamped to
    [0..n]. *)
Definition slice_index (n i : Z) : Z :=
  if i <? 0 then Z.max 0 (i + n) else Z.min i n.

(** [s[i:j]] *)
Definition slice {A} (s : list A) (i j : Z) : list A :=
  let lo := slice_index (len s) i in
  let hi := slice_index (len s) j in
  take (Z.to_nat (hi - lo)) (drop (Z.to_nat lo) s).

(** [s[i:]] *)
Definition slice_from {A} (s : list A) (i : Z) : list A :=
  drop (Z.to_nat (slice_index (len s) i)) s.

(** [range(n)] *)
Definition range (n : Z) : list Z := seqZ 0 n.

(** [sorted(l)] on integers *)
Definition sorted (l : list Z) : list Z := merge_sort Z.le l.

(** ** Outcomes: a value, or a raised [ValueError] *)

Inductive outcome (A : Type) : Type :=
  | Return (a : A)
  | Raise (msg : string).
Arguments Return {A} a.
Arguments Raise {A} msg.

(** A raised error leaves the rest of the method unexecuted. *)
#[global] Instance outcome_bind : MBind outcome := λ A B k m,
  match m with
  | Return a => k a
  | Raise msg => Raise msg
  end.

Definition raises {A} (m : outcome A) : Prop :=
  match m with Return _ => False | Raise _ => True end.

(** ** class RestrictionEnzyme *)

Record RestrictionEnzyme := {
  name : string;
  recognition_seq : str;
  cut_pos_5 : Z;
  cut_pos_3 : Z
}.

(** [RestrictionEnzyme.__init__] *)
Definition new_RestrictionEnzyme (nm : string) (rs : str) (c5 : Z) (c3 : option Z)
    : RestrictionEnzyme :=
  {| name := nm;
     recognition_seq := upper rs;
     cut_pos_5 := c5;
     cut_pos_3 := match c3 with Some c => c | None => c5 end |}.

Definition get_overhang_type (self : RestrictionEnzyme) : string :=
  if bool_decide (cut_pos_5 self = cut_pos_3 self) then "blunt"
  else if bool_decide (cut_pos_5 self > cut_pos_3 self) then "5' overhang"
  else "3' overhang".

(** ** class DNADigest *)

Definition valid_bases : gset ascii := list_to_set (lit "ATCG").

(** [all(base in valid_bases for base in s)] *)
Definition all_valid (s : str) : bool :=
  forallb (λ base, bool_decide (base ∈ valid_bases)) s.

Definition dna_error : string :=
  "DNA sequence contains invalid characters. Use only A, T, C, G.".
Definition recognition_error : string :=
  "Recognition sequence contains invalid characters. Use only A, T, C, G.".

Definition find_restriction_sites (dna_seq recognition_seq : str) : outcome (list Z) :=
  let dna_seq := normalize dna_seq in
  let recognition_seq := upper recognition_seq in
  if negb (all_valid dna_seq) then Raise dna_error
  else if negb (all_valid recognition_seq) then Raise recognition_error
  else
    Return (filter (λ i, slice dna_seq i (i + len recognition_seq) = recognition_seq)
                   (range (len dna_seq - len recognition_seq + 1))).

(** The dictionary returned by [digest_dna].  The return statement of the
    no-site branch has no ['recognition_sites'] key. *)
Record digest_result := {
  enzyme : string;
  recognition_sequence : str;
  cut_sites : list Z;
  fragments : list str;
  fragment_lengths : list Z;
  overhang_type : string;
  total_sites : Z;
  recognition_sites : option (list Z)
}.

(** One round of the loop [for cut_pos in ...: if start < cut_pos: ...;
    start = cut_pos], on the loop state [(fragments, start)]. *)
Definition cut_step (dna_seq : str) (st : list str * Z) (cut_pos : Z) : list str * Z :=
  let '(fragments, start) := st in
  (if bool_decide (start < cut_pos)
   then fragments ++ [slice dna_seq start cut_pos]
   else fragments,
   cut_pos).

(** The fragment generation shared by [digest_dna] and [multiple_digest]:
    the loop over the cuts, then the final fragment. *)
Definition generate_fragments (dna_seq : str) (cuts : list Z) : list str :=
  let '(fragments, start) := fold_left (cut_step dna_seq) cuts ([], 0) in
  if bool_decide (start < len dna_seq)
  then fragments ++ [slice_from dna_seq start]
  else fragments.

(** [[site + cut_pos_5 for site in sites if 0 <= site + cut_pos_5 <= len(dna_seq)]],
    which is also what the loop of [digest_dna] appends. *)
Definition cut_positions_of (dna_seq : str) (sites : list Z) (cut_pos_5 : Z) : list Z :=
  filter (λ cut_pos, 0 ≤ cut_pos ≤ len dna_seq) ((λ site, site + cut_pos_5) <$> sites).

Definition digest_dna (dna_seq recognition_seq : str) (cut_pos_5 : Z)
    (cut_pos_3 : option Z) (enzyme_name : string) : outcome digest_result :=
  let dna_seq := normalize dna_seq in
  sites ← find_restriction_sites dna_seq recognition_seq ;
  let cut_pos_3 := match cut_pos_3 with None => cut_pos_5 | Some c => c end in
  let temp_enzyme :=
    new_RestrictionEnzyme enzyme_name recognition_seq cut_pos_5 (Some cut_pos_3) in
  match sites with
  | [] =>
      Return {| enzyme := enzyme_name;
                recognition_sequence := recognition_seq;
                cut_sites := [];
                fragments := [dna_seq];
                fragment_lengths := [len dna_seq];
                overhang_type := get_overhang_type temp_enzyme;
                total_sites := 0;
                recognition_sites := None |}
  | _ =>
      let cut_positions := cut_positions_of dna_seq sites cut_pos_5 in
      let fragments := generate_fragments dna_seq (sorted cut_positions) in
      let fragments := filter (λ f, f ≠ []) fragments in
      Return {| enzyme := enzyme_name;
                recognition_sequence := recognition_seq;
                cut_sites := cut_positions;
                fragments := fragments;
                fragment_lengths := len <$> fragments;
                overhang_type := get_overhang_type temp_enzyme;
                total_sites := len sites;
                recognition_sites := Some sites |}
  end.

(** An entry of [enzymes_data]: [(name, recognition_seq, cut_pos_5)] with an
    optional fourth component. *)
Definition enzyme_data : Type := string * str * Z * option Z.

(** An entry of the ['enzymes'] list of [multiple_digest]. *)
Record enzyme_info := {
  info_name : string;
  info_recognition_seq : str;
  info_sites : Z;
  info_cut_positions : list Z
}.

Record multiple_digest_result := {
  enzymes : list enzyme_info;
  total_cuts : Z;
  cut_positions : list Z;
  multi_fragments : list str;
  multi_fragment_lengths : list Z
}.

(** The loop [for enzyme_data in enzymes_data] of [multiple_digest], on the
    state [(all_cuts, enzyme_info)]. *)
Fixpoint enzymes_loop (dna_seq : str) (enzymes_data : list enzyme_data)
    (all_cuts : list Z) (info : list enzyme_info)
    : outcome (list Z * list enzyme_info) :=
  match enzymes_data with
  | [] => Return (all_cuts, info)
  | (nm, recognition_seq, cut_pos_5, _) :: rest =>
      sites ← find_restriction_sites dna_seq recognition_seq ;
      let cut_positions := cut_positions_of dna_seq sites cut_pos_5 in
      enzymes_loop dna_seq rest
        (all_cuts ++ cut_positions)
        (info ++ [ {| info_name := nm;
                      info_recognition_seq := recognition_seq;
                      info_sites := len sites;
                      info_cut_positions := cut_positions |} ])
  end.

Definition multiple_digest (dna_seq : str) (enzymes_data : list enzyme_data)
    : outcome multiple_digest_result :=
  let dna_seq := normalize dna_seq in
  '(all_cuts, info) ← enzymes_loop dna_seq enzymes_data [] [] ;
  let all_cuts := sorted (elements (list_to_set all_cuts : gset Z)) in
  let fragments := generate_fragments dna_seq all_cuts in
  Return {| enzymes := info;
            total_cuts := len all_cuts;
            cut_positions := all_cuts;
            multi_fragments := fragments;
            multi_fragment_lengths := len <$> fragments |}.

(** ** Vocabulary of the statements *)

(** The four bases, written out. *)
Definition is_base (c : ascii) : Prop :=
  c = "A"%char ∨ c = "T"%char ∨ c = "C"%char ∨ c = "G"%char.

(** [s] contains a character outside {A,T,C,G}. *)
Definition has_invalid (s : str) : Prop := ∃ c, c ∈ s ∧ ¬ is_base c.

(** [pattern] occurs in [sequence] at offset [i]. *)
Definition occurs_at (sequence pattern : str) (i : Z) : Prop :=
  ∃ before after,
    sequence = before ++ pattern ++ after ∧ len before = i.

(** The 5' cut offset of an entry of [enzymes_data], and its pattern. *)
Definition data_pattern (d : enzyme_data) : str := d.1.1.2.
Definition data_cut_pos_5 (d : enzyme_data) : Z := d.1.2.

Definition data_name (d : enzyme_data) : string := d.1.1.1.

(** The cut coordinates one enzyme contributes: site offset plus 5' cut
    offset, for the sites found, kept when inside [0, len]. *)
Definition surviving_cut (dna_seq : str) (d : enzyme_data) (c : Z) : Prop :=
  ∃ sites site,
    find_restriction_sites dna_seq (data_pattern d) = Return sites ∧
    site ∈ sites ∧ c = site + data_cut_pos_5 d ∧ 0 ≤ c ≤ len (normalize dna_seq).

(** The cut offset of the 3' strand after its default is filled in. *)
Definition effective_cut_pos_3 (cut_pos_5 : Z) (cut_pos_3 : option Z) : Z :=
  match cut_pos_3 with None => cut_pos_5 | Some c => c end.

(** What the three [replace] calls keep. *)
Definition kept (c : ascii) : Prop := c ≠ tab ∧ c ≠ newline ∧ c ≠ space.

(** The sequence with the three whitespace characters taken out. *)
Definition strip_whitespace (s : str) : str := filter kept s.

(** The list the scan of [find_restriction_sites] builds, on the
    normalised sequence and the upper-case pattern. *)
Definition scan_sites (dna_seq recognition_seq : str) : list Z :=
  filter (λ i, slice dna_seq i (i + len recognition_seq) = recognition_seq)
         (range (len dna_seq - len recognition_seq + 1)).

(** What one round of the loop of [multiple_digest] computes for an entry,
    on the normalised sequence. *)
Definition data_sites (dna : str) (d : enzyme_data) : list Z :=
  scan_sites dna (upper (data_pattern d)).

Definition data_cuts (dna : str) (d : enzyme_data) : list Z :=
  cut_positions_of dna (data_sites dna d) (data_cut_pos_5 d).

Definition data_info (dna : str) (d : enzyme_data) : enzyme_info :=
  {| info_name := data_name d;
     info_recognition_seq := data_pattern d;
     info_sites := len (data_sites dna d);
     info_cut_positions := data_cuts dna d |}.

Definition patterns_valid (enzymes_data : list enzyme_data) : bool :=
  forallb (λ d, all_valid (upper (data_pattern d))) enzymes_data.

(** The cut list of a multiple digest that returns. *)
Definition merged_cuts (dna : str) (enzymes_data : list enzyme_data) : list Z :=
  sorted (elements (list_to_set (mjoin (data_cuts dna <$> enzymes_data)) : gset Z)).

(** The invariant of the cutting loop: the fragments emitted so far are
    non-empty and spell the sequence up to the cursor [start]. *)
Definition cursor_invariant (dna_seq : str) (st : list str * Z) : Prop :=
  0 ≤ st.2 ≤ len dna_seq ∧
  concat st.1 = take (Z.to_nat st.2) dna_seq ∧
  Forall (λ f, f ≠ []) st.1.

(** A sequence in lower case with a space, a newline and a tab inside. *)
Definition untidy_sequence : str :=
  lit "gg atcc" ++ [newline; tab] ++ lit "ggatcc".

(** ** The enzyme registry and the check of a cut position *)




Definition validate_cut_position (recognition_seq : str) (cut_pos : Z) : bool :=
  bool_decide (0 ≤ cut_pos ≤ len recognition_seq).

(** The sum of a list of lengths. *)
Definition total (lengths : list Z) : Z := foldr Z.add 0 lengths.

(** The end offsets of consecutive pieces with the given lengths, the first
    piece starting at [start]. *)
Fixpoint end_offsets (start : Z) (lengths : list Z) : list Z :=
  match lengths with
  | [] => []
  | l :: lengths' => (start + l) :: end_offsets (start + l) lengths'
  end.

(** What [generate_fragments] does after its loop, on the final loop state:
    the last fragment is added when the cursor is short of the end. *)
Definition add_final_fragment (dna_seq : str) (st : list str * Z) : list str :=
  if bool_decide (st.2 < len dna_seq)
  then st.1 ++ [slice_from dna_seq st.2]
  else st.1.

(** The cuts strictly inside the sequence. *)
Definition interior_cuts (dna_seq : str) (cuts : list Z) : list Z :=
  filter (λ c, 0 < c < len dna_seq) cuts.

(** ** Output and exceptions of the interactive layer *)

(** What the program writes: the text of a [print] call (a newline follows
    it on the terminal), or the prompt of an [input] call. *)
Inductive event :=
  | Printed (text : str)
  | Prompted (text : str).

(** The exceptions of the interactive layer: the [ValueError] of the digest,
    the [KeyError] of a dictionary access, the [EOFError] of [input]. *)
Inductive exception :=
  | ValueError (msg : string)
  | KeyError (key : string)
  | EOFError.

(** [str(e)] *)
Definition str_of_exception (e : exception) : str :=
  match e with
  | ValueError msg => lit msg
  | KeyError key => lit "'" ++ lit key ++ lit "'"
  | EOFError => lit "EOF when reading a line"
  end.

(** [str(n)] for an integer *)
Definition str_of_int (n : Z) : str := lit (pretty n).

Fixpoint comma_separated (l : list Z) : str :=
  match l with
  | [] => []
  | [n] => str_of_int n
  | n :: l' => str_of_int n ++ lit ", " ++ comma_separated l'
  end.

(** [str(l)] for a list of integers *)
Definition str_of_ints (l : list Z) : str :=
  lit "[" ++ comma_separated l ++ lit "]".

(** The loop [for i, (fragment, length) in enumerate(zip(...), 1)] that ends
    both printing functions, from the counter [i] on. *)
Fixpoint print_fragments (i : Z) (pairs : list (str * Z)) : list event :=
  match pairs with
  | [] => []
  | (fragment, length) :: pairs' =>
      Printed (lit "  Fragment " ++ str_of_int i ++ lit ": "
               ++ str_of_int length ++ lit " bp")
      :: Printed (if bool_decide (length ≤ 60)
                  then lit "    Sequence: " ++ fragment
                  else lit "    Sequence: " ++ slice fragment 0 30 ++ lit "..."
                       ++ slice_from fragment (-30))
      :: print_fragments (i + 1) pairs'
  end.

(** [print_digest_results]: what it prints, and the exception that ends it,
    if any.  The lookup [results['recognition_sites']] raises [KeyError] on a
    dictionary without that key. *)
Definition print_digest_results (results : digest_result)
    : list event * option exception :=
  let head :=
    [ Printed ([newline] ++ lit "=== Digest Results: " ++ lit (enzyme results)
               ++ lit " ===");
      Printed (lit "Recognition Sequence: " ++ recognition_sequence results);
      Printed (lit "Overhang Type: " ++ lit (overhang_type results));
      Printed (lit "Recognition Sites Found: " ++ str_of_int (total_sites results)) ]
  in
  match recognition_sites results with
  | None => (head, Some (KeyError "recognition_sites"))
  | Some sites =>
      (head
       ++ match sites with
          | [] => []
          | _ =>
              [ Printed (lit "Recognition Site Positions: " ++ str_of_ints sites);
                Printed (lit "Cut Positions: " ++ str_of_ints (cut_sites results)) ]
          end
       ++ [ Printed ([newline] ++ lit "Fragments Generated: "
                     ++ str_of_int (len (fragments results))) ]
       ++ print_fragments 1 (zip (fragments results) (fragment_lengths results)),
       None)
  end.

(** [print_multiple_digest_results] *)
Definition print_multiple_digest_results (results : multiple_digest_result)
    : list event :=
  [ Printed ([newline] ++ lit "=== Multiple Enzyme Digest Results ===") ]
  ++ ((λ enzyme,
         Printed (lit (info_name enzyme) ++ lit ": "
                  ++ str_of_int (info_sites enzyme) ++ lit " sites ("
                  ++ info_recognition_seq enzyme ++ lit ")"))
      <$> enzymes results)
  ++ [ Printed ([newline] ++ lit "Total Cut Positions: "
                ++ str_of_int (len (cut_positions results))) ]
  ++ match cut_positions results with
     | [] => []
     | _ => [ Printed (lit "Cut Positions: " ++ str_of_ints (cut_positions results)) ]
     end
  ++ [ Printed ([newline] ++ lit "Fragments Generated: "
                ++ str_of_int (len (multi_fragments results))) ]
  ++ print_fragments 1 (zip (multi_fragments results) (multi_fragment_lengths results)).

(** ** [get_user_input] *)

(** The characters [str.strip()] takes off, among the 8-bit ones. *)
Definition is_whitespace (c : ascii) : bool :=
  let n := nat_of_ascii c in
  ((9 <=? n) && (n <=? 13) || (28 <=? n) && (n <=? 32)
   || (n =? 133) || (n =? 160))%nat.

Fixpoint lstrip (s : str) : str :=
  match s with
  | c :: s' => if is_whitespace c then lstrip s' else s
  | [] => []
  end.

(** [s.strip()] *)
Definition strip (s : str) : str := reverse (lstrip (reverse (lstrip s))).

(** One character of [str.lower()]: a letter A-Z moves to a-z. *)
Definition lower_char (c : ascii) : ascii :=
  let n := nat_of_ascii c in
  if ((65 <=? n) && (n <=? 90))%nat then ascii_of_nat (n + 32) else c.

(** [s.lower()] *)
Definition lower (s : str) : str := lower_char <$> s.

(** [all(base in 'ATCG' for base in s)] *)
Definition all_in_ATCG (s : str) : bool :=
  forallb (λ base, bool_decide (base ∈ lit "ATCG")) s.

(** The value [get_user_input] returns: [(None, None)] or the sequence and
    the list of enzyme tuples. *)
Definition user_input : Type := option str * option (list enzyme_data).

(** The [input] calls of [get_user_input], each with the variables that are
    live when it is reached: the program waits in one of these places. *)
Inductive waiting :=
  | ReadDna (dna_lines : list str)
  | ReadName (dna_sequence : str) (enzymes : list enzyme_data)
  | ReadPattern (dna_sequence : str) (enzymes : list enzyme_data) (name : str)
  | ReadCut5 (dna_sequence : str) (enzymes : list enzyme_data) (name : str)
      (recognition_seq : str)
  | ReadThreePrime (dna_sequence : str) (enzymes : list enzyme_data) (name : str)
      (recognition_seq : str) (cut_pos_5 : Z)
  | ReadCut3 (dna_sequence : str) (enzymes : list enzyme_data) (name : str)
      (recognition_seq : str) (cut_pos_5 : Z)
  | ReadMore (dna_sequence : str) (enzymes : list enzyme_data).

(** What is written on the way to an [input] call, from the top of the loop
    the call is in: for the name, the heading of the enzyme and the prompt;
    for the others, the prompt. *)
Definition on_reaching (w : waiting) : list event :=
  match w with
  | ReadDna _ => []
  | ReadName _ enzymes =>
      [ Printed ([newline] ++ lit "--- Enzyme " ++ str_of_int (len enzymes + 1)
                 ++ lit " ---");
        Prompted (lit "Enter enzyme name (or press Enter to finish): ") ]
  | ReadPattern _ _ _ => [ Prompted (lit "Enter recognition sequence: ") ]
  | ReadCut5 _ _ _ recognition_seq =>
      [ Prompted (lit "Enter cut position on 5' strand (0-"
                  ++ str_of_int (len recognition_seq) ++ lit "): ") ]
  | ReadThreePrime _ _ _ _ _ =>
      [ Prompted (lit "Different cut position on 3' strand? (y/n): ") ]
  | ReadCut3 _ _ _ recognition_seq _ =>
      [ Prompted (lit "Enter cut position on 3' strand (0-"
                  ++ str_of_int (len recognition_seq) ++ lit "): ") ]
  | ReadMore _ _ => [ Prompted (lit "Add another enzyme? (y/n): ") ]
  end.

Section interactive.

(** The built-in [int] on a string, where [None] stands for its
    [ValueError]. *)
Variable int : str → option Z.

(** The code between one [input] call and the next, or the [return]: what it
    prints, and where the program waits next or what it returns. *)
Definition after_input (w : waiting) (line : str)
    : list event * (waiting + user_input) :=
  match w with
  | ReadDna dna_lines =>
      let line := strip line in
      if bool_decide (line = []) && negb (bool_decide (dna_lines = [])) then
        let dna_sequence := normalize (concat dna_lines) in
        if bool_decide (dna_sequence = []) then
          ([ Printed (lit "No DNA sequence provided!") ], inr (None, None))
        else
          ([ Printed ([newline] ++ lit "DNA sequence received ("
                      ++ str_of_int (len dna_sequence) ++ lit " bp)");
             Printed (if bool_decide (len dna_sequence ≤ 100)
                      then lit "Sequence: " ++ dna_sequence
                      else lit "Sequence: " ++ slice dna_sequence 0 50 ++ lit "..."
                           ++ slice_from dna_sequence (-50)) ],
           inl (ReadName dna_sequence []))
      else if bool_decide (line = []) then ([], inl (ReadDna dna_lines))
      else ([], inl (ReadDna (dna_lines ++ [line])))
  | ReadName dna_sequence enzymes =>
      let name := strip line in
      if bool_decide (name = []) then ([], inr (Some dna_sequence, Some enzymes))
      else ([], inl (ReadPattern dna_sequence enzymes name))
  | ReadPattern dna_sequence enzymes name =>
      let recognition_seq := upper (strip line) in
      if bool_decide (recognition_seq = []) then
        ([ Printed (lit "Recognition sequence cannot be empty!") ],
         inl (ReadName dna_sequence enzymes))
      else if negb (all_in_ATCG recognition_seq) then
        ([ Printed (lit "Invalid recognition sequence! Use only A, T, C, G.") ],
         inl (ReadName dna_sequence enzymes))
      else ([], inl (ReadCut5 dna_sequence enzymes name recognition_seq))
  | ReadCut5 dna_sequence enzymes name recognition_seq =>
      match int line with
      | None => ([ Printed (lit "Please enter a valid number!") ], inl w)
      | Some cut_pos_5 =>
          if negb (validate_cut_position recognition_seq cut_pos_5) then
            ([ Printed (lit "Cut position must be between 0 and "
                        ++ str_of_int (len recognition_seq)) ], inl w)
          else
            ([], inl (ReadThreePrime dna_sequence enzymes name recognition_seq
                        cut_pos_5))
      end
  | ReadThreePrime dna_sequence enzymes name recognition_seq cut_pos_5 =>
      let three_prime := lower (strip line) in
      if bool_decide (three_prime = lit "y") then
        ([], inl (ReadCut3 dna_sequence enzymes name recognition_seq cut_pos_5))
      else
        ([], inl (ReadMore dna_sequence
                    (enzymes ++ [(string_of_list_ascii name, recognition_seq,
                                  cut_pos_5, None)])))
  | ReadCut3 dna_sequence enzymes name recognition_seq cut_pos_5 =>
      match int line with
      | None => ([ Printed (lit "Please enter a valid number!") ], inl w)
      | Some cut_pos_3 =>
          if negb (validate_cut_position recognition_seq cut_pos_3) then
            ([ Printed (lit "Cut position must be between 0 and "
                        ++ str_of_int (len recognition_seq)) ], inl w)
          else
            ([], inl (ReadMore dna_sequence
                        (enzymes ++ [(string_of_list_ascii name, recognition_seq,
                                      cut_pos_5, Some cut_pos_3)])))
      end
  | ReadMore dna_sequence enzymes =>
      let more := lower (strip line) in
      if bool_decide (more ≠ lit "y") then
        ([], inr (Some dna_sequence, Some enzymes))
      else ([], inl (ReadName dna_sequence enzymes))
  end.

(** The run from an [input] call on, over the lines left on the standard
    input: what is written, and the value returned with the lines not read,
    or the [EOFError] of an [input] call that finds no line. *)
Fixpoint run_input (w : waiting) (stdin : list str)
    : list event * (exception + user_input * list str) :=
  match stdin with
  | [] => (on_reaching w, inl EOFError)
  | line :: stdin' =>
      match after_input w line with
      | (printed, inl w') =>
          let '(rest, outcome) := run_input w' stdin' in
          (on_reaching w ++ printed ++ rest, outcome)
      | (printed, inr value) =>
          (on_reaching w ++ printed, inr (value, stdin'))
      end
  end.

Definition get_user_input (stdin : list str)
    : list event * (exception + user_input * list str) :=
  let '(written, outcome) := run_input (ReadDna []) stdin in
  ([ Printed (lit "=== Restriction Enzyme Digestion Analysis ===" ++ [newline]);
     Printed (lit "Enter your DNA sequence:");
     Printed (lit "(You can paste multiple lines, press Enter twice when done)") ]
   ++ written, outcome).

(** ** [main] *)

(** The two statements [results = digest_dna(...)] and
    [print_digest_results(results)] that [main] runs for one enzyme tuple. *)
Definition digest_and_print (dna_sequence : str) (d : enzyme_data)
    : list event * option exception :=
  let '(name, recognition_seq, cut_pos_5, cut_pos_3) := d in
  match digest_dna dna_sequence recognition_seq cut_pos_5 cut_pos_3 name with
  | Raise msg => ([], Some (ValueError msg))
  | Return results => print_digest_results results
  end.

(** The loop [for enzyme_data in enzymes_data] of [main]; an exception ends
    it. *)
Fixpoint individual_results (dna_sequence : str) (enzymes_data : list enzyme_data)
    : list event * option exception :=
  match enzymes_data with
  | [] => ([], None)
  | d :: rest =>
      match digest_and_print dna_sequence d with
      | (printed, Some e) => (printed, Some e)
      | (printed, None) =>
          let '(more, outcome) := individual_results dna_sequence rest in
          (printed ++ more, outcome)
      end
  end.

(** The statements of the [try] block of [main] after the call of
    [get_user_input], on the value it returned. *)
Definition analyse (input : user_input) : list event * option exception :=
  match input with
  | (Some ((_ :: _) as dna_sequence), Some ((_ :: _) as enzymes_data)) =>
      match enzymes_data with
      | [d] => digest_and_print dna_sequence d
      | _ =>
          match multiple_digest dna_sequence enzymes_data with
          | Raise msg => ([], Some (ValueError msg))
          | Return results =>
              let '(individual, outcome) :=
                individual_results dna_sequence enzymes_data in
              (print_multiple_digest_results results
               ++ [ Printed ([newline] ++ lit "=== Individual Enzyme Results ===") ]
               ++ individual, outcome)
          end
      end
  | _ => ([ Printed (lit "No valid input provided. Exiting.") ], None)
  end.

(** The [try] block of [main]: what it writes and the exception that leaves
    it, if any. *)
Definition main_try (stdin : list str) : list event * option exception :=
  match get_user_input stdin with
  | (written, inl e) => (written, Some e)
  | (written, inr (input, _)) =>
      let '(printed, outcome) := analyse input in
      (written ++ printed, outcome)
  end.

(** [main]: everything the program writes when its standard input holds the
    lines [stdin]. *)
Definition main (stdin : list str) : list event :=
  match main_try stdin with
  | (written, None) => written
  | (written, Some e) =>
      written
      ++ [ Printed (lit "Error: " ++ str_of_exception e);
           Printed (lit "Please check your input and try again.") ]
  end.

End interactive.

(** A stand-in for [int] in examples: the value of a string of decimal
    digits, and [None] for any other string. *)
Definition int_of_digits (s : str) : option Z :=
  if bool_decide (s = []) then None
  else
    foldl (λ acc c,
             n ← acc;
             let d := nat_of_ascii c in
             if ((48 <=? d) && (d <=? 57))%nat
             then Some (10 * n + Z.of_nat (d - 48)) else None)
          (Some 0) s.

(** ** Vocabulary for the interactive layer *)

(** A string with a character that [strip] does not take off. *)
Definition has_visible (s : str) : Prop :=
  ∃ c, c ∈ s ∧ is_whitespace c = false.

(** A sequence as [get_user_input] returns it: not empty, and left as it is
    by the normalisation. *)
Definition collected_sequence (dna_sequence : str) : Prop :=
  dna_sequence ≠ [] ∧ normalize dna_sequence = dna_sequence.

(** A pattern that passed the checks of [get_user_input]. *)
Definition checked_pattern (recognition_seq : str) : Prop :=
  recognition_seq ≠ [] ∧
  upper recognition_seq = recognition_seq ∧
  all_valid recognition_seq = true.

(** An enzyme tuple that passed the checks of [get_user_input]. *)
Definition checked_enzyme (d : enzyme_data) : Prop :=
  data_name d ≠ EmptyString ∧
  checked_pattern (data_pattern d) ∧
  validate_cut_position (data_pattern d) (data_cut_pos_5 d) = true ∧
  ∀ cut_pos_3, d.2 = Some cut_pos_3 →
               validate_cut_position (data_pattern d) cut_pos_3 = true.

(** What holds of the live variables at each [input] call. *)
Definition waiting_checked (w : waiting) : Prop :=
  match w with
  | ReadDna dna_lines => Forall has_visible dna_lines
  | ReadName dna_sequence enzymes | ReadMore dna_sequence enzymes =>
      collected_sequence dna_sequence ∧ Forall checked_enzyme enzymes
  | ReadPattern dna_sequence enzymes name =>
      collected_sequence dna_sequence ∧ Forall checked_enzyme enzymes ∧ name ≠ []
  | ReadCut5 dna_sequence enzymes name recognition_seq =>
      collected_sequence dna_sequence ∧ Forall checked_enzyme enzymes ∧ name ≠ [] ∧
      checked_pattern recognition_seq
  | ReadThreePrime dna_sequence enzymes name recognition_seq cut_pos_5
  | ReadCut3 dna_sequence enzymes name recognition_seq cut_pos_5 =>
      collected_sequence dna_sequence ∧ Forall checked_enzyme enzymes ∧ name ≠ [] ∧
      checked_pattern recognition_seq ∧
      validate_cut_position recognition_seq cut_pos_5 = true
  end.

(** A value [get_user_input] can return. *)
Definition checked_input (value : user_input) : Prop :=
  ∃ dna_sequence enzymes,
    value = (Some dna_sequence, Some enzymes) ∧
    collected_sequence dna_sequence ∧ Forall checked_enzyme enzymes.

(** The message of the branch [if not dna_sequence] of [get_user_input]. *)
Definition no_dna_message : event := Printed (lit "No DNA sequence provided!").

(** The lines from the first one that [strip] does not empty on. *)
Fixpoint skip_blank (lines : list str) : list str :=
  match lines with
  | [] => []
  | line :: lines' =>
      if bool_decide (strip line = []) then skip_blank lines' else lines
  end.

(** The lines before the first one that [strip] empties. *)
Fixpoint until_blank (lines : list str) : list str :=
  match lines with
  | [] => []
  | line :: lines' =>
      if bool_decide (strip line = []) then [] else line :: until_blank lines'
  end.

(** The sequence held at an [input] call, once it has been read. *)
Definition waiting_sequence (w : waiting) : option str :=
  match w with
  | ReadDna _ => None
  | ReadName dna_sequence _ | ReadPattern dna_sequence _ _
  | ReadCut5 dna_sequence _ _ _ | ReadThreePrime dna_sequence _ _ _ _
  | ReadCut3 dna_sequence _ _ _ _ | ReadMore dna_sequence _ => Some dna_sequence
  end.

(** ** Running the program *)

Example single_cutter :
  digest_dna (lit "GGGGAATTCCCC") (lit "GAATTC") 1 None "EcoRI" =
  Return {| enzyme := "EcoRI";
            recognition_sequence := lit "GAATTC";
            cut_sites := [4];
            fragments := [lit "GGGG"; lit "AATTCCCC"];
            fragment_lengths := [4; 8];
            overhang_type := "blunt";
            total_sites := 1;
            recognition_sites := Some [3] |}.
Proof. vm_compute. reflexivity. Qed.

Example overlapping_sites :
  find_restriction_sites (lit "AAAA") (lit "AA") = Return [0; 1; 2].
Proof. vm_compute. reflexivity. Qed.

(** A cut offset beyond the pattern: the cut of the second site falls
    behind the end of the sequence and is left out. *)
Example cut_beyond_pattern :
  ∃ r, digest_dna (lit "ATAT") (lit "AT") 3 None "X" = Return r ∧
       recognition_sites r = Some [0; 2] ∧ cut_sites r = [3] ∧
       fragments r = [lit "ATA"; lit "T"].
Proof. eexists. split; [vm_compute; reflexivity|]. by vm_compute. Qed.

(** The recognition pattern is upper-cased and nothing else: whitespace
    inside a pattern is an invalid character. *)
Example pattern_whitespace_is_invalid :
  digest_dna (lit "ATCG") (lit "A T") 0 None "Test" = Raise recognition_error.
Proof. vm_compute. reflexivity. Qed.

(** ** Strings and slices *)

Section slices.
Context {A : Type}.
Implicit Types s t : list A.

Lemma len_nonneg s : 0 ≤ len s.
Proof. unfold len. lia. Qed.

Lemma len_app s t : len (s ++ t) = len s + len t.
Proof. unfold len. rewrite length_app. lia. Qed.

Lemma len_nil_iff s : len s = 0 ↔ s = [].
Proof. unfold len. destruct s; simpl; split; intros; try done; lia. Qed.

Lemma slice_index_in_range n i : 0 ≤ i ≤ n → slice_index n i = i.
Proof.
  intros Hi. unfold slice_index.
  destruct (Z.ltb_spec i 0); lia.
Qed.

Lemma slice_in_range s i j :
  0 ≤ i ≤ j → j ≤ len s →
  slice s i j = take (Z.to_nat (j - i)) (drop (Z.to_nat i) s).
Proof.
  intros Hi Hj. unfold slice.
  rewrite !slice_index_in_range by lia. reflexivity.
Qed.

Lemma slice_from_in_range s i :
  0 ≤ i ≤ len s → slice_from s i = drop (Z.to_nat i) s.
Proof.
  intros Hi. unfold slice_from.
  rewrite slice_index_in_range by lia. reflexivity.
Qed.

(** A slice that starts inside the sequence and may run over its end. *)
Lemma slice_window s i m :
  0 ≤ i ≤ len s → 0 ≤ m →
  slice s i (i + m) = take (Z.to_nat m) (drop (Z.to_nat i) s).
Proof.
  intros Hi Hm. unfold slice, slice_index.
  destruct (Z.ltb_spec i 0); [lia|].
  destruct (Z.ltb_spec (i + m) 0); [lia|].
  rewrite (Z.min_l i) by lia.
  destruct (Z.le_gt_cases (i + m) (len s)).
  - rewrite Z.min_l by lia. f_equal. lia.
  - rewrite Z.min_r by lia.
    rewrite !take_ge; [done| |]; rewrite length_drop; unfold len in *; lia.
Qed.

Lemma filter_Forall_id (P : A → Prop) `{!∀ x, Decision (P x)} s :
  Forall P s → filter P s = s.
Proof.
  induction 1 as [|x s Hx Hs IH]; [done|].
  by rewrite filter_cons_True, IH.
Qed.

End slices.

Lemma occurs_at_take_drop (s p : str) i :
  occurs_at s p i ↔
  0 ≤ i ∧ i + len p ≤ len s ∧ take (length p) (drop (Z.to_nat i) s) = p.
Proof.
  split.
  - intros (b & a & -> & <-). split; [apply len_nonneg|]. split.
    + rewrite !len_app. pose proof (len_nonneg a). lia.
    + unfold len. rewrite Nat2Z.id, drop_app_length.
      by rewrite take_app_length.
  - intros (Hi & Hle & Heq).
    exists (take (Z.to_nat i) s), (drop (length p) (drop (Z.to_nat i) s)).
    split.
    + rewrite <- Heq at 1. by rewrite take_drop, take_drop.
    + unfold len in *. rewrite length_take. lia.
Qed.

(** ** Normalisation *)

Lemma upper_char_idem c : upper_char (upper_char c) = upper_char c.
Proof. destruct c as [[] [] [] [] [] [] [] []]; by vm_compute. Qed.

Lemma upper_idem s : upper (upper s) = upper s.
Proof.
  unfold upper. rewrite <- list_fmap_compose.
  apply list_fmap_ext. intros _ c _. apply upper_char_idem.
Qed.

Lemma normalize_filter s : normalize s = filter kept (upper s).
Proof.
  unfold normalize, remove_char. rewrite !list_filter_filter.
  apply list_filter_iff. intros c. unfold kept. tauto.
Qed.

Lemma filter_kept_fixed (l : str) :
  Forall (λ c, upper_char c = c) l →
  filter kept (upper (filter kept l)) = filter kept l.
Proof.
  induction 1 as [|c l Hc Hl IH]; [done|].
  rewrite filter_cons. case_decide as Hk; [|done].
  unfold upper in *. rewrite fmap_cons, Hc, filter_cons_True by done.
  by rewrite IH.
Qed.

Lemma normalize_idem s : normalize (normalize s) = normalize s.
Proof.
  rewrite !normalize_filter. apply filter_kept_fixed.
  unfold upper. apply Forall_fmap, Forall_true. intros c. apply upper_char_idem.
Qed.

(** The normalised sequence is in upper case and free of the three
    whitespace characters. *)
Lemma normalize_normalized s :
  upper (normalize s) = normalize s ∧
  (space ∉ normalize s) ∧ (newline ∉ normalize s) ∧ (tab ∉ normalize s).
Proof.
  rewrite normalize_filter. split.
  - unfold upper. rewrite <- (list_fmap_id (filter kept _)) at 2.
    apply list_fmap_ext. intros i c Hc.
    apply list_elem_of_lookup_2, list_elem_of_filter in Hc as [_ Hc].
    apply list_elem_of_fmap in Hc as (c' & -> & _). apply upper_char_idem.
  - unfold kept. repeat split; intros H%list_elem_of_filter; tauto.
Qed.

Lemma kept_upper_char_bool c :
  bool_decide (kept (upper_char c)) = bool_decide (kept c).
Proof. destruct c as [[] [] [] [] [] [] [] []]; by vm_compute. Qed.

Lemma kept_upper_char c : kept (upper_char c) ↔ kept c.
Proof.
  rewrite <- (bool_decide_eq_true (kept c)).
  rewrite <- (bool_decide_eq_true (kept (upper_char c))).
  by rewrite kept_upper_char_bool.
Qed.

Lemma normalize_upper_strip s : normalize s = upper (strip_whitespace s).
Proof.
  rewrite normalize_filter. unfold strip_whitespace, upper.
  induction s as [|c s IH]; [done|].
  rewrite fmap_cons, !filter_cons.
  destruct (decide (kept c)) as [Hc|Hc].
  - rewrite decide_True by by apply kept_upper_char.
    by rewrite fmap_cons, IH.
  - rewrite decide_False; [done|]. by rewrite kept_upper_char.
Qed.

(** ** Validation *)

Lemma elem_of_valid_bases c : c ∈ valid_bases ↔ is_base c.
Proof.
  unfold valid_bases, is_base, lit. simpl.
  rewrite !elem_of_union, !elem_of_singleton, elem_of_empty. tauto.
Qed.

Lemma all_valid_true s : all_valid s = true ↔ Forall is_base s.
Proof.
  unfold all_valid. induction s as [|c s IH]; simpl.
  - split; [constructor|done].
  - rewrite andb_true_iff, bool_decide_eq_true, IH, Forall_cons, elem_of_valid_bases.
    done.
Qed.

Lemma all_valid_false s : all_valid s = false ↔ has_invalid s.
Proof.
  unfold has_invalid. split.
  - intros Hf. apply not_true_iff_false in Hf. rewrite all_valid_true in Hf.
    apply not_Forall_Exists in Hf; [|intros c; unfold is_base; apply _].
    apply Exists_exists in Hf. done.
  - intros (c & Hc & Hn). apply not_true_iff_false. rewrite all_valid_true.
    rewrite Forall_forall. intros Hall. apply Hn, Hall, Hc.
Qed.

(** ** The overhang type *)

Lemma get_overhang_type_spec self :
  (get_overhang_type self = "blunt" ↔ cut_pos_5 self = cut_pos_3 self) ∧
  (get_overhang_type self = "5' overhang" ↔ cut_pos_5 self > cut_pos_3 self) ∧
  (get_overhang_type self = "3' overhang" ↔ cut_pos_5 self < cut_pos_3 self).
Proof.
  unfold get_overhang_type.
  repeat case_bool_decide; repeat split; intros; first [done | lia].
Qed.

(** ** The site scan *)

Lemma find_restriction_sites_unfold dna_seq recognition_seq :
  find_restriction_sites dna_seq recognition_seq =
  if negb (all_valid (normalize dna_seq)) then Raise dna_error
  else if negb (all_valid (upper recognition_seq)) then Raise recognition_error
  else Return (scan_sites (normalize dna_seq) (upper recognition_seq)).
Proof. reflexivity. Qed.

Lemma find_restriction_sites_normalize dna_seq recognition_seq :
  find_restriction_sites (normalize dna_seq) recognition_seq =
  find_restriction_sites dna_seq recognition_seq.
Proof. by rewrite !find_restriction_sites_unfold, normalize_idem. Qed.

Lemma elem_of_scan_sites dna_seq recognition_seq i :
  i ∈ scan_sites dna_seq recognition_seq ↔ occurs_at dna_seq recognition_seq i.
Proof.
  unfold scan_sites, range.
  rewrite list_elem_of_filter, elem_of_seqZ, occurs_at_take_drop.
  pose proof (len_nonneg recognition_seq) as Hr.
  split.
  - intros [Heq [Hi Hlt]]. rewrite slice_window in Heq by lia.
    unfold len in Heq at 1. rewrite Nat2Z.id in Heq.
    repeat split; [lia..|done].
  - intros (Hi & Hle & Heq). rewrite slice_window by lia.
    unfold len at 1. rewrite Nat2Z.id.
    repeat split; [done|lia..].
Qed.

Lemma scan_sites_nil_iff dna_seq recognition_seq :
  scan_sites dna_seq recognition_seq = [] ↔
  ∀ i, ¬ occurs_at dna_seq recognition_seq i.
Proof.
  split.
  - intros Hnil i Hi%elem_of_scan_sites. rewrite Hnil in Hi.
    by apply elem_of_nil in Hi.
  - intros Hno. apply elem_of_nil_inv. intros i Hi%elem_of_scan_sites.
    by apply (Hno i).
Qed.

Lemma StronglySorted_seqZ m n : StronglySorted Z.lt (seqZ m n).
Proof.
  remember (Z.to_nat n) as k eqn:Hk. revert m n Hk.
  induction k as [|k IH]; intros m n Hk.
  - rewrite seqZ_nil by lia. constructor.
  - rewrite seqZ_cons by lia. constructor.
    + apply IH. lia.
    + apply Forall_seqZ. lia.
Qed.

Lemma StronglySorted_filter {A} (R : relation A) (P : A → Prop)
    `{!∀ x, Decision (P x)} l :
  StronglySorted R l → StronglySorted R (filter P l).
Proof.
  induction 1 as [|x l Hl IH Hx]; [constructor|].
  rewrite filter_cons. case_decide; [|done].
  constructor; [done|].
  apply Forall_forall. intros y [_ Hy]%list_elem_of_filter.
  rewrite Forall_forall in Hx. auto.
Qed.

Lemma StronglySorted_le_NoDup_lt l :
  StronglySorted Z.le l → NoDup l → StronglySorted Z.lt l.
Proof.
  induction 1 as [|x l Hl IH Hx]; intros Hnd; [constructor|].
  apply NoDup_cons in Hnd as [Hnotin Hnd].
  constructor; [auto|].
  rewrite Forall_forall in *. intros y Hy.
  assert (x ≠ y) by (intros ->; done).
  specialize (Hx y Hy). lia.
Qed.

Lemma StronglySorted_lt_NoDup l : StronglySorted Z.lt l → NoDup l.
Proof.
  induction 1 as [|x l Hl IH Hx]; constructor; [|done].
  rewrite Forall_forall in Hx. intros Hin. specialize (Hx x Hin). lia.
Qed.

Lemma scan_sites_increasing dna_seq recognition_seq :
  StronglySorted Z.lt (scan_sites dna_seq recognition_seq).
Proof. apply StronglySorted_filter, StronglySorted_seqZ. Qed.

Lemma cut_positions_of_increasing dna_seq sites cut_pos_5 :
  StronglySorted Z.lt sites →
  StronglySorted Z.lt (cut_positions_of dna_seq sites cut_pos_5).
Proof.
  intros Hs. apply StronglySorted_filter.
  eapply StronglySorted_fmap; [|done]. intros x y. simpl. lia.
Qed.

Lemma elem_of_cut_positions_of dna_seq sites cut_pos_5 c :
  c ∈ cut_positions_of dna_seq sites cut_pos_5 ↔
  0 ≤ c ≤ len dna_seq ∧ ∃ site, site ∈ sites ∧ c = site + cut_pos_5.
Proof.
  unfold cut_positions_of. rewrite list_elem_of_filter, list_elem_of_fmap.
  split.
  - intros [Hc (site & -> & Hs)]. eauto.
  - intros [Hc (site & Hs & ->)]. eauto.
Qed.

(** ** Sorting *)

Lemma sorted_Sorted l : Sorted Z.le (sorted l).
Proof. apply (Sorted_merge_sort Z.le). Qed.

Lemma sorted_Permutation l : sorted l ≡ₚ l.
Proof. apply merge_sort_Permutation. Qed.

Lemma elem_of_sorted l c : c ∈ sorted l ↔ c ∈ l.
Proof. by rewrite sorted_Permutation. Qed.

(** Sorting an increasing list leaves it as it is. *)
Lemma sorted_increasing l : StronglySorted Z.lt l → sorted l = l.
Proof.
  intros Hl. apply (Sorted_unique Z.le).
  - apply sorted_Sorted.
  - apply StronglySorted_Sorted. eapply (StronglySorted_fmap id Z.lt Z.le) in Hl.
    + by rewrite list_fmap_id in Hl.
    + intros x y. simpl. lia.
  - apply sorted_Permutation.
Qed.

(** ** Fragment generation *)

Lemma concat_snoc {A} (ls : list (list A)) l : concat (ls ++ [l]) = concat ls ++ l.
Proof. rewrite concat_app. simpl. by rewrite app_nil_r. Qed.

Section cutting.
Variable dna_seq : str.

Lemma cut_step_invariant st cut_pos :
  cursor_invariant dna_seq st →
  st.2 ≤ cut_pos ≤ len dna_seq →
  cursor_invariant dna_seq (cut_step dna_seq st cut_pos).
Proof.
  destruct st as [fragments start]. unfold cursor_invariant, cut_step. simpl.
  intros (Hs & Hcat & Hne) Hc.
  case_bool_decide as Hlt; simpl.
  - split; [lia|]. rewrite slice_in_range by lia. split.
    + rewrite concat_snoc, Hcat, take_take_drop. f_equal. lia.
    + apply Forall_app. split; [done|]. apply Forall_singleton.
      intros Hnil%(f_equal length). revert Hnil.
      rewrite length_take, length_drop. unfold len in *. simpl. lia.
  - assert (cut_pos = start) as -> by lia. done.
Qed.

Lemma cut_loop_invariant cuts st :
  cursor_invariant dna_seq st →
  Sorted Z.le (st.2 :: cuts) →
  Forall (λ c, 0 ≤ c ≤ len dna_seq) cuts →
  cursor_invariant dna_seq (fold_left (cut_step dna_seq) cuts st).
Proof.
  revert st. induction cuts as [|c cuts IH]; intros st Hinv Hsorted Hrange; [done|].
  simpl. apply Sorted_inv in Hsorted as [Hsorted Hhd].
  apply HdRel_inv in Hhd. apply Forall_cons in Hrange as [Hc Hrange].
  apply IH; [|by destruct st|done].
  apply cut_step_invariant; [done|lia].
Qed.

(** Sorted cuts inside the sequence cut it into non-empty fragments that
    spell it. *)
Lemma generate_fragments_partition cuts :
  Sorted Z.le cuts →
  Forall (λ c, 0 ≤ c ≤ len dna_seq) cuts →
  concat (generate_fragments dna_seq cuts) = dna_seq ∧
  Forall (λ f, f ≠ []) (generate_fragments dna_seq cuts).
Proof.
  intros Hsorted Hrange. unfold generate_fragments.
  assert (cursor_invariant dna_seq (fold_left (cut_step dna_seq) cuts ([], 0)))
    as Hinv.
  { apply cut_loop_invariant; [| |done].
    - unfold cursor_invariant. simpl. pose proof (len_nonneg dna_seq).
      repeat split; [lia..|constructor].
    - constructor; [done|].
      destruct Hrange as [|c cuts' [Hc _] _]; constructor. done. }
  destruct (fold_left _ _ _) as [fragments start].
  destruct Hinv as (Hs & Hcat & Hne). simpl in *.
  case_bool_decide as Hlt.
  - rewrite slice_from_in_range by lia. split.
    + by rewrite concat_snoc, Hcat, take_drop.
    + apply Forall_app. split; [done|]. apply Forall_singleton.
      intros Hnil%(f_equal length). revert Hnil.
      rewrite length_drop. unfold len in *. simpl. lia.
  - split; [|done]. rewrite Hcat. apply take_ge. unfold len in *. lia.
Qed.

(** The fragments of [digest_dna] when sites were found. *)
Lemma digest_cuts_partition sites cut_pos_5 :
  let frags :=
    filter (λ f, f ≠ [])
      (generate_fragments dna_seq
         (sorted (cut_positions_of dna_seq sites cut_pos_5))) in
  concat frags = dna_seq ∧ Forall (λ f, f ≠ []) frags.
Proof.
  intros frags.
  destruct (generate_fragments_partition
              (sorted (cut_positions_of dna_seq sites cut_pos_5))) as [Hcat Hne].
  - apply sorted_Sorted.
  - rewrite sorted_Permutation. apply Forall_forall.
    intros c Hc. by apply elem_of_cut_positions_of in Hc as [Hc _].
  - unfold frags. by rewrite filter_Forall_id.
Qed.

End cutting.

(** ** The outcomes of [digest_dna] *)

Lemma digest_dna_cases dna_seq recognition_seq cut_pos_5 cut_pos_3 enzyme_name :
  let dna := normalize dna_seq in
  let sites := scan_sites dna (upper recognition_seq) in
  let temp_enzyme :=
    new_RestrictionEnzyme enzyme_name recognition_seq cut_pos_5
      (Some (effective_cut_pos_3 cut_pos_5 cut_pos_3)) in
  let cuts := cut_positions_of dna sites cut_pos_5 in
  let frags := filter (λ f, f ≠ []) (generate_fragments dna (sorted cuts)) in
  (all_valid dna = false ∧
   digest_dna dna_seq recognition_seq cut_pos_5 cut_pos_3 enzyme_name
   = Raise dna_error) ∨
  (all_valid dna = true ∧ all_valid (upper recognition_seq) = false ∧
   digest_dna dna_seq recognition_seq cut_pos_5 cut_pos_3 enzyme_name
   = Raise recognition_error) ∨
  (all_valid dna = true ∧ all_valid (upper recognition_seq) = true ∧
   sites = [] ∧
   digest_dna dna_seq recognition_seq cut_pos_5 cut_pos_3 enzyme_name
   = Return {| enzyme := enzyme_name;
               recognition_sequence := recognition_seq;
               cut_sites := [];
               fragments := [dna];
               fragment_lengths := [len dna];
               overhang_type := get_overhang_type temp_enzyme;
               total_sites := 0;
               recognition_sites := None |}) ∨
  (all_valid dna = true ∧ all_valid (upper recognition_seq) = true ∧
   sites ≠ [] ∧
   digest_dna dna_seq recognition_seq cut_pos_5 cut_pos_3 enzyme_name
   = Return {| enzyme := enzyme_name;
               recognition_sequence := recognition_seq;
               cut_sites := cuts;
               fragments := frags;
               fragment_lengths := len <$> frags;
               overhang_type := get_overhang_type temp_enzyme;
               total_sites := len sites;
               recognition_sites := Some sites |}).
Proof.
  intros dna sites temp_enzyme cuts frags.
  unfold digest_dna. rewrite find_restriction_sites_normalize.
  rewrite find_restriction_sites_unfold. fold dna.
  destruct (all_valid dna) eqn:Hd; simpl; [|by left].
  destruct (all_valid (upper recognition_seq)) eqn:Hr; simpl;
    [|right; by left].
  right; right. fold sites. fold (effective_cut_pos_3 cut_pos_5 cut_pos_3).
  fold temp_enzyme.
  destruct sites as [|site sites'] eqn:Hsites; [by left|by right].
Qed.

(** Case analysis on the outcome of a call of [digest_dna]. *)
Ltac digest_outcome dna rs c5 c3 nm :=
  let H := fresh "Hcases" in
  pose proof (digest_dna_cases dna rs c5 c3 nm) as H; cbv zeta in H;
  destruct H as [(Hdna & Hout) | [(Hdna & Hrs & Hout) |
                [(Hdna & Hrs & Hsites & Hout) | (Hdna & Hrs & Hsites & Hout)]]].

Lemma digest_dna_normalize
    dna_seq recognition_seq cut_pos_5 cut_pos_3 enzyme_name :
  digest_dna (normalize dna_seq) recognition_seq cut_pos_5 cut_pos_3 enzyme_name
  = digest_dna dna_seq recognition_seq cut_pos_5 cut_pos_3 enzyme_name.
Proof. unfold digest_dna. by rewrite normalize_idem. Qed.

Lemma digest_cut_sites_spec
    dna_seq recognition_seq cut_pos_5 cut_pos_3 enzyme_name r :
  digest_dna dna_seq recognition_seq cut_pos_5 cut_pos_3 enzyme_name = Return r →
  find_restriction_sites dna_seq recognition_seq
    = Return (scan_sites (normalize dna_seq) (upper recognition_seq)) ∧
  cut_sites r =
    cut_positions_of (normalize dna_seq)
      (scan_sites (normalize dna_seq) (upper recognition_seq)) cut_pos_5.
Proof.
  intros Hr. rewrite find_restriction_sites_unfold.
  digest_outcome dna_seq recognition_seq cut_pos_5 cut_pos_3 enzyme_name;
    rewrite Hout in Hr; try done; injection Hr as <-; simpl;
    rewrite Hdna, Hrs; simpl; [|done].
  by rewrite Hsites.
Qed.

Lemma digest_returns_iff
    dna_seq recognition_seq cut_pos_5 cut_pos_3 enzyme_name :
  (∃ sites, find_restriction_sites dna_seq recognition_seq = Return sites) ↔
  (∃ r, digest_dna dna_seq recognition_seq cut_pos_5 cut_pos_3 enzyme_name
        = Return r).
Proof.
  rewrite find_restriction_sites_unfold.
  digest_outcome dna_seq recognition_seq cut_pos_5 cut_pos_3 enzyme_name;
    rewrite Hout, Hdna, ?Hrs; simpl; split; intros [x Hx]; try done; eauto.
Qed.

(** ** The outcomes of [multiple_digest] *)

Lemma enzymes_loop_valid dna_seq enzymes_data all_cuts info :
  all_valid (normalize dna_seq) = true →
  patterns_valid enzymes_data = true →
  enzymes_loop (normalize dna_seq) enzymes_data all_cuts info =
  Return (all_cuts ++ mjoin (data_cuts (normalize dna_seq) <$> enzymes_data),
          info ++ (data_info (normalize dna_seq) <$> enzymes_data)).
Proof.
  intros Hd. revert all_cuts info.
  induction enzymes_data as [|[[[nm rs] c5] c3] rest IH]; intros all_cuts info Hp.
  - simpl. by rewrite !app_nil_r.
  - simpl in Hp. apply andb_true_iff in Hp as [Hrs Hp].
    simpl. rewrite find_restriction_sites_unfold, normalize_idem, Hd.
    unfold data_pattern in Hrs. simpl in Hrs. rewrite Hrs. simpl.
    rewrite IH by done. by rewrite <- !app_assoc.
Qed.

Lemma enzymes_loop_invalid_dna dna_seq enzymes_data all_cuts info :
  all_valid (normalize dna_seq) = false →
  enzymes_data ≠ [] →
  enzymes_loop (normalize dna_seq) enzymes_data all_cuts info = Raise dna_error.
Proof.
  intros Hd Hne. destruct enzymes_data as [|[[[nm rs] c5] c3] rest]; [done|].
  simpl. by rewrite find_restriction_sites_unfold, normalize_idem, Hd.
Qed.

Lemma enzymes_loop_invalid_pattern dna_seq enzymes_data all_cuts info :
  all_valid (normalize dna_seq) = true →
  patterns_valid enzymes_data = false →
  enzymes_loop (normalize dna_seq) enzymes_data all_cuts info
  = Raise recognition_error.
Proof.
  intros Hd. revert all_cuts info.
  induction enzymes_data as [|[[[nm rs] c5] c3] rest IH]; intros all_cuts info Hp;
    [done|].
  simpl in Hp. simpl. rewrite find_restriction_sites_unfold, normalize_idem, Hd.
  unfold data_pattern in Hp. simpl in Hp.
  destruct (all_valid (upper rs)); simpl; [|done].
  by apply IH.
Qed.

Lemma multiple_digest_cases dna_seq enzymes_data :
  let dna := normalize dna_seq in
  let all_cuts := merged_cuts dna enzymes_data in
  (enzymes_data ≠ [] ∧ all_valid dna = false ∧
   multiple_digest dna_seq enzymes_data = Raise dna_error) ∨
  (enzymes_data ≠ [] ∧ all_valid dna = true ∧
   patterns_valid enzymes_data = false ∧
   multiple_digest dna_seq enzymes_data = Raise recognition_error) ∨
  ((enzymes_data = [] ∨
    (all_valid dna = true ∧ patterns_valid enzymes_data = true)) ∧
   multiple_digest dna_seq enzymes_data
   = Return {| enzymes := data_info dna <$> enzymes_data;
               total_cuts := len all_cuts;
               cut_positions := all_cuts;
               multi_fragments := generate_fragments dna all_cuts;
               multi_fragment_lengths := len <$> generate_fragments dna all_cuts |}).
Proof.
  intros dna all_cuts. unfold multiple_digest. fold dna.
  destruct (decide (enzymes_data = [])) as [->|Hne].
  { right; right. split; [by left|done]. }
  destruct (all_valid dna) eqn:Hd.
  - destruct (patterns_valid enzymes_data) eqn:Hp.
    + right; right. split; [by right|].
      unfold dna. rewrite enzymes_loop_valid by done. reflexivity.
    + right; left. unfold dna. by rewrite enzymes_loop_invalid_pattern.
  - left. unfold dna. by rewrite enzymes_loop_invalid_dna.
Qed.

(** Case analysis on the outcome of a call of [multiple_digest]. *)
Ltac multiple_outcome dna ds :=
  let H := fresh "Hcases" in
  pose proof (multiple_digest_cases dna ds) as H; cbv zeta in H;
  destruct H as [(Hne & Hdna & Hout) | [(Hne & Hdna & Hpat & Hout) | (Hok & Hout)]].

Lemma multiple_digest_normalize dna_seq enzymes_data :
  multiple_digest (normalize dna_seq) enzymes_data
  = multiple_digest dna_seq enzymes_data.
Proof. unfold multiple_digest. by rewrite normalize_idem. Qed.

(** ** The merged cut list *)

Lemma elem_of_merged_cuts dna enzymes_data c :
  c ∈ merged_cuts dna enzymes_data ↔
  ∃ d, d ∈ enzymes_data ∧ c ∈ data_cuts dna d.
Proof.
  unfold merged_cuts.
  rewrite elem_of_sorted, elem_of_elements, elem_of_list_to_set, list_elem_of_join.
  split.
  - intros (l & Hc & Hl). apply list_elem_of_fmap in Hl as (d & -> & Hd). eauto.
  - intros (d & Hd & Hc). exists (data_cuts dna d). split; [done|].
    apply list_elem_of_fmap. eauto.
Qed.

Lemma merged_cuts_increasing dna enzymes_data :
  StronglySorted Z.lt (merged_cuts dna enzymes_data).
Proof.
  apply StronglySorted_le_NoDup_lt.
  - apply Sorted_StronglySorted; [apply _|apply sorted_Sorted].
  - unfold merged_cuts. rewrite sorted_Permutation. apply NoDup_elements.
Qed.

Lemma merged_cuts_in_range dna enzymes_data :
  Forall (λ c, 0 ≤ c ≤ len dna) (merged_cuts dna enzymes_data).
Proof.
  apply Forall_forall. intros c (d & _ & Hc)%elem_of_merged_cuts.
  by apply elem_of_cut_positions_of in Hc as [Hc _].
Qed.

Lemma merged_cuts_Permutation dna enzymes_data enzymes_data' :
  enzymes_data ≡ₚ enzymes_data' →
  merged_cuts dna enzymes_data = merged_cuts dna enzymes_data'.
Proof.
  intros Hperm. unfold merged_cuts. do 2 f_equal.
  apply list_to_set_perm_L. by rewrite Hperm.
Qed.

Lemma merged_cuts_partition dna enzymes_data :
  let frags := generate_fragments dna (merged_cuts dna enzymes_data) in
  concat frags = dna ∧ Forall (λ f, f ≠ []) frags.
Proof.
  apply generate_fragments_partition.
  - apply sorted_Sorted.
  - apply merged_cuts_in_range.
Qed.

Lemma patterns_valid_Permutation enzymes_data enzymes_data' :
  enzymes_data ≡ₚ enzymes_data' →
  patterns_valid enzymes_data = patterns_valid enzymes_data'.
Proof.
  unfold patterns_valid.
  induction 1 as [|d l l' _ IH|d d' l|l l' l'' _ IH _ IH']; simpl.
  - done.
  - by rewrite IH.
  - by rewrite !andb_assoc, (andb_comm (all_valid _)).
  - by rewrite IH.
Qed.

Lemma patterns_valid_false enzymes_data :
  patterns_valid enzymes_data = false ↔
  ∃ d, d ∈ enzymes_data ∧ has_invalid (upper (data_pattern d)).
Proof.
  unfold patterns_valid. induction enzymes_data as [|d rest IH]; simpl.
  - split; [done|]. intros (d & Hd & _). by apply elem_of_nil in Hd.
  - rewrite andb_false_iff, IH, all_valid_false. split.
    + intros [Hd|(d' & Hd' & Hinv)].
      * exists d. split; [left|done].
      * exists d'. split; [by right|done].
    + intros (d' & Hd' & Hinv). apply elem_of_cons in Hd' as [->|Hd'].
      * by left.
      * right. eauto.
Qed.

Lemma patterns_valid_true enzymes_data d :
  patterns_valid enzymes_data = true → d ∈ enzymes_data →
  all_valid (upper (data_pattern d)) = true.
Proof.
  intros Hp Hd. destruct (all_valid (upper (data_pattern d))) eqn:Hv; [done|].
  assert (patterns_valid enzymes_data = false) as Hf; [|congruence].
  apply patterns_valid_false. exists d. by rewrite <- all_valid_false.
Qed.

Lemma surviving_cut_data_cuts dna_seq d c :
  all_valid (normalize dna_seq) = true →
  all_valid (upper (data_pattern d)) = true →
  surviving_cut dna_seq d c ↔ c ∈ data_cuts (normalize dna_seq) d.
Proof.
  intros Hd Hr. unfold surviving_cut, data_cuts.
  rewrite elem_of_cut_positions_of, find_restriction_sites_unfold, Hd, Hr. simpl.
  fold (data_sites (normalize dna_seq) d). split.
  - intros (sites & site & [= <-] & Hs & Hc & Hrange). eauto.
  - intros (Hrange & site & Hs & Hc). eauto 10.
Qed.

Lemma elem_of_merged_cuts_surviving dna_seq enzymes_data c :
  enzymes_data = [] ∨
    (all_valid (normalize dna_seq) = true ∧ patterns_valid enzymes_data = true) →
  c ∈ merged_cuts (normalize dna_seq) enzymes_data ↔
  ∃ d, d ∈ enzymes_data ∧ surviving_cut dna_seq d c.
Proof.
  intros Hok. rewrite elem_of_merged_cuts.
  destruct Hok as [->|[Hdna Hpat]].
  - split; intros (d & Hd & _); by apply elem_of_nil in Hd.
  - split; intros (d & Hd & Hc); exists d; (split; [done|]).
    + apply surviving_cut_data_cuts; eauto using patterns_valid_true.
    + apply surviving_cut_data_cuts in Hc; eauto using patterns_valid_true.
Qed.

(** ** Properties of the digests *)

(** C1, as stated, fails: the digest of the empty sequence with a pattern
    that is not found returns the one fragment [""], an empty string. *)
Lemma empty_sequence_has_empty_fragment :
  ¬ (∀ r, digest_dna (lit "") (lit "AT") 0 None "Test" = Return r →
          concat (fragments r) = normalize (lit "") ∧
          Forall (λ f, f ≠ []) (fragments r)).
Proof.
  intros H. destruct (H _ eq_refl) as [_ Hne].
  vm_compute in Hne. by apply Forall_cons in Hne as [Hne _].
Qed.

(** C1 (amended): whenever [digest_dna] or [multiple_digest] returns, the
    fragments concatenated in order are the normalised sequence.  No fragment
    of [multiple_digest] is empty; no fragment of [digest_dna] is empty unless
    the normalised sequence is empty and no site was found, and then the
    fragment list is the single empty string. *)
Theorem fragments_partition :
  (∀ dna_seq recognition_seq cut_pos_5 cut_pos_3 enzyme_name r,
     digest_dna dna_seq recognition_seq cut_pos_5 cut_pos_3 enzyme_name = Return r →
     concat (fragments r) = normalize dna_seq ∧
     (normalize dna_seq ≠ [] ∨ total_sites r ≠ 0 →
      Forall (λ f, f ≠ []) (fragments r)) ∧
     (normalize dna_seq = [] → total_sites r = 0 → fragments r = [[]])) ∧
  (∀ dna_seq enzymes_data r,
     multiple_digest dna_seq enzymes_data = Return r →
     concat (multi_fragments r) = normalize dna_seq ∧
     Forall (λ f, f ≠ []) (multi_fragments r)).
Proof.
  split.
  - intros dna rs c5 c3 nm r Hr.
    digest_outcome dna rs c5 c3 nm; rewrite Hout in Hr; try done;
      injection Hr as <-; simpl.
    + split; [by rewrite app_nil_r|]. split.
      * intros [Hne|Hne]; [|done]. by repeat constructor.
      * by intros -> _.
    + destruct (digest_cuts_partition (normalize dna)
                  (scan_sites (normalize dna) (upper rs)) c5) as [Hcat Hne].
      split; [done|]. split; [done|].
      intros _ Hlen%len_nil_iff. done.
  - intros dna ds r Hr.
    multiple_outcome dna ds; rewrite Hout in Hr; try done.
    injection Hr as <-; simpl. apply merged_cuts_partition.
Qed.

Lemma fragments_partition_witness :
  (∃ r, digest_dna untidy_sequence (lit "GGATCC") 1 None "BamHI" = Return r ∧
        concat (fragments r) = lit "GGATCCGGATCC" ∧
        Forall (λ f, f ≠ []) (fragments r)) ∧
  (∃ r, multiple_digest (lit "GGATCCGGATCC")
          [("a", lit "GGATCC", 1, None); ("b", lit "GATC", 0, Some 4)] = Return r ∧
        concat (multi_fragments r) = lit "GGATCCGGATCC" ∧
        Forall (λ f, f ≠ []) (multi_fragments r)).
Proof.
  pose proof (proj1 fragments_partition untidy_sequence
    (lit "GGATCC") 1 None "BamHI") as Hdigest.
  pose proof (proj2 fragments_partition (lit "GGATCCGGATCC")
    [("a", lit "GGATCC", 1, None); ("b", lit "GATC", 0, Some 4)]) as Hmulti.
  split.
  - eexists. split; [vm_compute; reflexivity|].
    destruct (Hdigest _ ltac:(vm_compute; reflexivity)) as (Hcat & Hne & _).
    split; [exact Hcat|]. apply Hne. left. vm_compute. discriminate.
  - eexists. split; [vm_compute; reflexivity|].
    exact (Hmulti _ ltac:(vm_compute; reflexivity)).
Defined.

(** C2, as stated, fails: with an empty descriptor list [multiple_digest]
    never reaches the validation, and returns for a sequence with characters
    outside {A,T,C,G}. *)
Lemma empty_descriptor_list_skips_validation :
  ¬ (raises (multiple_digest (lit "XYZ") []) ↔
     has_invalid (normalize (lit "XYZ")) ∨
     ∃ d, d ∈ [] ∧ has_invalid (upper (data_pattern d))).
Proof.
  intros [_ H]. apply H. left. exists "X"%char. split.
  - vm_compute. repeat constructor.
  - intros [?|[?|[?|?]]]; discriminate.
Qed.

(** C2 (amended): a call of [digest_dna], or of [multiple_digest] with a
    non-empty descriptor list, raises if and only if the normalised sequence
    or the upper-cased recognition pattern of some descriptor contains a
    character outside {A,T,C,G}.  An outcome is a result or an error, never
    both. *)
Theorem invalid_alphabet_iff :
  (∀ dna_seq recognition_seq cut_pos_5 cut_pos_3 enzyme_name,
     raises (digest_dna dna_seq recognition_seq cut_pos_5 cut_pos_3 enzyme_name) ↔
     has_invalid (normalize dna_seq) ∨ has_invalid (upper recognition_seq)) ∧
  (∀ dna_seq enzymes_data,
     enzymes_data ≠ [] →
     (raises (multiple_digest dna_seq enzymes_data) ↔
      has_invalid (normalize dna_seq) ∨
      ∃ d, d ∈ enzymes_data ∧ has_invalid (upper (data_pattern d)))).
Proof.
  split.
  - intros dna rs c5 c3 nm. rewrite <- !all_valid_false.
    digest_outcome dna rs c5 c3 nm; rewrite Hout, Hdna, ?Hrs; simpl;
      intuition congruence.
  - intros dna ds Hds. rewrite <- patterns_valid_false, <- all_valid_false.
    multiple_outcome dna ds; rewrite Hout; simpl.
    + intuition congruence.
    + intuition congruence.
    + destruct Hok as [->|[Hdna Hpat]]; [done|]. rewrite Hdna, Hpat.
      intuition congruence.
Qed.

Lemma invalid_alphabet_iff_witness :
  (has_invalid (normalize (lit "ATCGX")) ∨ has_invalid (upper (lit "AT"))) ∧
  (has_invalid (normalize (lit "ATCG")) ∨
   ∃ d, d ∈ [("Test", lit "ATN", 0, None) : enzyme_data] ∧
        has_invalid (upper (data_pattern d))).
Proof.
  split.
  - apply (proj1 invalid_alphabet_iff (lit "ATCGX") (lit "AT") 0 None "Test").
    vm_compute. exact I.
  - apply (proj2 invalid_alphabet_iff (lit "ATCG") [("Test", lit "ATN", 0, None)]).
    + discriminate.
    + vm_compute. exact I.
Defined.

(** C3: [multiple_digest] on two descriptor lists that are permutations of
    each other has the same outcome up to the order of the per-enzyme
    entries: the same cut list, the same number of cuts, the same fragments
    and lengths (or the same error).  The cut list is strictly increasing,
    so it has no duplicate; it holds exactly the surviving cut coordinates
    of the descriptors; the cut count is its length; and no fragment is
    empty. *)
Theorem multiple_digest_order_independent dna_seq enzymes_data enzymes_data'
    (Hperm : enzymes_data ≡ₚ enzymes_data') :
  match multiple_digest dna_seq enzymes_data,
        multiple_digest dna_seq enzymes_data' with
  | Return r, Return r' =>
      cut_positions r = cut_positions r' ∧
      total_cuts r = total_cuts r' ∧
      multi_fragments r = multi_fragments r' ∧
      multi_fragment_lengths r = multi_fragment_lengths r'
  | Raise msg, Raise msg' => msg = msg'
  | _, _ => False
  end ∧
  ∀ r, multiple_digest dna_seq enzymes_data = Return r →
    StronglySorted Z.lt (cut_positions r) ∧
    NoDup (cut_positions r) ∧
    (∀ c, c ∈ cut_positions r ↔
          ∃ d, d ∈ enzymes_data ∧ surviving_cut dna_seq d c) ∧
    total_cuts r = len (cut_positions r) ∧
    Forall (λ f, f ≠ []) (multi_fragments r).
Proof.
  split.
  - assert (enzymes_data = [] ↔ enzymes_data' = []) as Hnil.
    { split; intros ->.
      - by apply Permutation_nil_l in Hperm.
      - by apply Permutation_nil_r in Hperm. }
    pose proof (multiple_digest_cases dna_seq enzymes_data') as Hcases'.
    cbv zeta in Hcases'.
    rewrite <- (patterns_valid_Permutation _ _ Hperm) in Hcases'.
    rewrite <- (merged_cuts_Permutation _ _ _ Hperm) in Hcases'.
    multiple_outcome dna_seq enzymes_data;
      destruct Hcases' as [(Hne' & Hdna' & Hout') |
                          [(Hne' & Hdna' & Hpat' & Hout') | (Hok' & Hout')]];
      rewrite Hout, Hout'; simpl; try done; try congruence;
      intuition congruence.
  - intros r Hr.
    multiple_outcome dna_seq enzymes_data; rewrite Hout in Hr; try done.
    injection Hr as <-; simpl.
    pose proof (merged_cuts_increasing (normalize dna_seq) enzymes_data) as Hinc.
    split; [done|]. split; [by apply StronglySorted_lt_NoDup|].
    split; [intros c; by apply elem_of_merged_cuts_surviving|].
    split; [done|]. apply merged_cuts_partition.
Qed.

Lemma multiple_digest_order_independent_witness :
  ∃ r r',
    multiple_digest (lit "GGATCCGGATCC")
      [("a", lit "GGATCC", 1, None); ("b", lit "GATC", 0, Some 4)] = Return r ∧
    multiple_digest (lit "GGATCCGGATCC")
      [("b", lit "GATC", 0, Some 4); ("a", lit "GGATCC", 1, None)] = Return r' ∧
    cut_positions r = [1; 7] ∧
    cut_positions r = cut_positions r' ∧
    multi_fragments r = multi_fragments r' ∧
    NoDup (cut_positions r).
Proof.
  pose proof (multiple_digest_order_independent (lit "GGATCCGGATCC")
    [("a", lit "GGATCC", 1, None); ("b", lit "GATC", 0, Some 4)]
    [("b", lit "GATC", 0, Some 4); ("a", lit "GGATCC", 1, None)]
    (perm_swap _ _ _)) as [Hsame Hcuts].
  do 2 eexists. split; [vm_compute; reflexivity|].
  split; [vm_compute; reflexivity|].
  split; [vm_compute; reflexivity|].
  split; [exact (proj1 Hsame)|].
  split; [exact (proj1 (proj2 (proj2 Hsame)))|].
  exact (proj1 (proj2 (Hcuts _ ltac:(vm_compute; reflexivity)))).
Defined.

(** C4: for a valid sequence and a valid pattern that does not occur in it,
    [digest_dna] returns the no-site result: no cut, a site count of 0, the
    whole normalised sequence as the one fragment, its length, and the
    overhang type of the two cut offsets.  The result has no
    ['recognition_sites'] entry: the site list is absent, not empty. *)
Theorem digest_no_sites dna_seq recognition_seq cut_pos_5 cut_pos_3 enzyme_name :
  all_valid (normalize dna_seq) = true →
  all_valid (upper recognition_seq) = true →
  (∀ i, ¬ occurs_at (normalize dna_seq) (upper recognition_seq) i) →
  find_restriction_sites dna_seq recognition_seq = Return [] ∧
  digest_dna dna_seq recognition_seq cut_pos_5 cut_pos_3 enzyme_name
  = Return {| enzyme := enzyme_name;
              recognition_sequence := recognition_seq;
              cut_sites := [];
              fragments := [normalize dna_seq];
              fragment_lengths := [len (normalize dna_seq)];
              overhang_type :=
                get_overhang_type
                  (new_RestrictionEnzyme enzyme_name recognition_seq cut_pos_5
                     (Some (effective_cut_pos_3 cut_pos_5 cut_pos_3)));
              total_sites := 0;
              recognition_sites := None |}.
Proof.
  intros Hd Hr Hno. apply scan_sites_nil_iff in Hno. split.
  - by rewrite find_restriction_sites_unfold, Hd, Hr, Hno.
  - digest_outcome dna_seq recognition_seq cut_pos_5 cut_pos_3 enzyme_name;
      congruence.
Qed.

Lemma digest_no_sites_witness :
  find_restriction_sites (lit "ATCGATCG") (lit "GAATTC") = Return [] ∧
  digest_dna (lit "ATCGATCG") (lit "GAATTC") 1 None "EcoRI"
  = Return {| enzyme := "EcoRI";
              recognition_sequence := lit "GAATTC";
              cut_sites := [];
              fragments := [lit "ATCGATCG"];
              fragment_lengths := [8];
              overhang_type := "blunt";
              total_sites := 0;
              recognition_sites := None |}.
Proof.
  apply (digest_no_sites (lit "ATCGATCG") (lit "GAATTC") 1 None "EcoRI").
  - reflexivity.
  - reflexivity.
  - apply scan_sites_nil_iff. vm_compute. reflexivity.
Defined.

(** C5: on a valid sequence and a valid pattern [find_restriction_sites]
    returns, in strictly increasing order, exactly the offsets at which the
    pattern occurs in the normalised sequence, overlapping occurrences
    included; all of them lie in [0, len(sequence) - len(pattern)]; a pattern
    longer than the sequence gives the empty list; and on "AAAA" with "AA"
    the result is [0, 1, 2]. *)
Theorem find_restriction_sites_complete dna_seq recognition_seq
    (Hdna : all_valid (normalize dna_seq) = true)
    (Hrs : all_valid (upper recognition_seq) = true) :
  (∃ sites,
     find_restriction_sites dna_seq recognition_seq = Return sites ∧
     StronglySorted Z.lt sites ∧
     (∀ i, i ∈ sites ↔ occurs_at (normalize dna_seq) (upper recognition_seq) i) ∧
     (∀ i, i ∈ sites →
           0 ≤ i ≤ len (normalize dna_seq) - len (upper recognition_seq)) ∧
     (len (upper recognition_seq) > len (normalize dna_seq) → sites = [])) ∧
  find_restriction_sites (lit "AAAA") (lit "AA") = Return [0; 1; 2].
Proof.
  split; [|by vm_compute].
  exists (scan_sites (normalize dna_seq) (upper recognition_seq)).
  split; [by rewrite find_restriction_sites_unfold, Hdna, Hrs|].
  split; [apply scan_sites_increasing|].
  split; [intros i; apply elem_of_scan_sites|].
  split.
  - intros i Hi%elem_of_scan_sites%occurs_at_take_drop. lia.
  - intros Hlong. apply scan_sites_nil_iff.
    intros i Hi%occurs_at_take_drop. lia.
Qed.

Lemma find_restriction_sites_complete_witness :
  ∃ sites,
    find_restriction_sites (lit "aa aa") (lit "aa") = Return sites ∧
    StronglySorted Z.lt sites ∧
    (∀ i, i ∈ sites ↔ occurs_at (lit "AAAA") (lit "AA") i).
Proof.
  destruct (find_restriction_sites_complete (lit "aa aa") (lit "aa")
              eq_refl eq_refl) as [(sites & Hret & Hinc & Hocc & _) _].
  exists sites. split; [exact Hret|]. split; [exact Hinc|exact Hocc].
Defined.

(** C6, as stated, fails: with the empty pattern the scan compares the empty
    slice at each offset with the empty pattern and reports every offset. *)
Lemma empty_pattern_does_not_fail :
  ¬ raises (find_restriction_sites (lit "AT") (lit "")).
Proof. vm_compute. tauto. Qed.

(** C6 (amended): with the empty pattern [find_restriction_sites] raises
    nothing on a valid sequence; it returns every offset from 0 to the
    length of the normalised sequence, in increasing order.  (An invalid
    sequence is rejected as with any pattern.) *)
Theorem find_restriction_sites_empty_pattern dna_seq :
  find_restriction_sites dna_seq [] =
  if all_valid (normalize dna_seq)
  then Return (range (len (normalize dna_seq) + 1))
  else Raise dna_error.
Proof.
  rewrite find_restriction_sites_unfold.
  destruct (all_valid (normalize dna_seq)); [|done]. simpl. f_equal.
  unfold scan_sites. rewrite Z.sub_0_r.
  apply filter_Forall_id. apply Forall_seqZ. intros i Hi.
  rewrite slice_window by (try apply len_nonneg; lia). done.
Qed.

(** C7: whenever the site search succeeds the digest returns, whatever the
    cut offset is (also one beyond the pattern), and the cut coordinates of
    the result are exactly the sums site + cut offset that lie in
    [0, len(sequence)]: the others are left out, none raises.  The same holds
    for [multiple_digest], for the merged cut list and for the cut list of
    each enzyme. *)
Theorem cut_coordinates_within_bounds :
  (∀ dna_seq recognition_seq cut_pos_5 cut_pos_3 enzyme_name sites,
     find_restriction_sites dna_seq recognition_seq = Return sites →
     ∃ r,
       digest_dna dna_seq recognition_seq cut_pos_5 cut_pos_3 enzyme_name
         = Return r ∧
       (∀ c, c ∈ cut_sites r ↔
             0 ≤ c ≤ len (normalize dna_seq) ∧
             ∃ site, site ∈ sites ∧ c = site + cut_pos_5)) ∧
  (∀ dna_seq enzymes_data,
     (∀ d, d ∈ enzymes_data →
           ∃ sites, find_restriction_sites dna_seq (data_pattern d) = Return sites) →
     ∃ r,
       multiple_digest dna_seq enzymes_data = Return r ∧
       (∀ c, c ∈ cut_positions r ↔
             ∃ d, d ∈ enzymes_data ∧ surviving_cut dna_seq d c) ∧
       Forall (λ c, 0 ≤ c ≤ len (normalize dna_seq)) (cut_positions r) ∧
       Forall (λ e, Forall (λ c, 0 ≤ c ≤ len (normalize dna_seq))
                      (info_cut_positions e)) (enzymes r)).
Proof.
  split.
  - intros dna rs c5 c3 nm sites Hfind.
    destruct (proj1 (digest_returns_iff dna rs c5 c3 nm)) as [r Hr]; [eauto|].
    exists r. split; [done|].
    apply digest_cut_sites_spec in Hr as [Hfind' ->].
    rewrite Hfind in Hfind'. injection Hfind' as ->.
    intros c. apply elem_of_cut_positions_of.
  - intros dna ds Hfind.
    multiple_outcome dna ds.
    + destruct ds as [|d ds']; [done|].
      destruct (Hfind d) as [sites Hs]; [left|].
      by rewrite find_restriction_sites_unfold, Hdna in Hs.
    + apply patterns_valid_false in Hpat as (d & Hd & Hinv%all_valid_false).
      destruct (Hfind d Hd) as [sites Hs].
      by rewrite find_restriction_sites_unfold, Hdna, Hinv in Hs.
    + eexists. split; [exact Hout|]. simpl.
      split; [intros c; by apply elem_of_merged_cuts_surviving|].
      split; [apply merged_cuts_in_range|].
      apply Forall_fmap, Forall_true. intros d. simpl.
      apply Forall_forall. intros c Hc.
      by apply elem_of_cut_positions_of in Hc as [Hc _].
Qed.

Lemma cut_coordinates_within_bounds_witness :
  (∃ r, digest_dna (lit "ATAT") (lit "AT") 3 None "X" = Return r ∧
        ∀ c, c ∈ cut_sites r ↔
             0 ≤ c ≤ len (normalize (lit "ATAT")) ∧
             ∃ site, site ∈ [0; 2] ∧ c = site + 3) ∧
  (∃ r, multiple_digest (lit "ATAT") [("X", lit "AT", 3, None)] = Return r ∧
        Forall (λ c, 0 ≤ c ≤ len (normalize (lit "ATAT"))) (cut_positions r)).
Proof.
  split.
  - apply (proj1 cut_coordinates_within_bounds (lit "ATAT") (lit "AT") 3 None "X").
    vm_compute. reflexivity.
  - destruct (proj2 cut_coordinates_within_bounds (lit "ATAT")
                [("X", lit "AT", 3, None)]) as (r & Hr & _ & Hrange & _).
    + intros d Hd. apply list_elem_of_singleton in Hd as ->.
      eexists. vm_compute. reflexivity.
    + exists r. split; [exact Hr|exact Hrange].
Defined.

(** C8: the result of [digest_dna] has its ['recognition_sites'] entry
    exactly when a site was found; it is then the list of the sites.  When
    the site count is 0 the entry is not an empty list: it is absent. *)
Theorem recognition_sites_absent_without_sites
    dna_seq recognition_seq cut_pos_5 cut_pos_3 enzyme_name r :
  digest_dna dna_seq recognition_seq cut_pos_5 cut_pos_3 enzyme_name = Return r →
  (recognition_sites r = None ↔ total_sites r = 0) ∧
  (∀ sites, recognition_sites r = Some sites →
            find_restriction_sites dna_seq recognition_seq = Return sites
            ∧ sites ≠ []).
Proof.
  intros Hr.
  digest_outcome dna_seq recognition_seq cut_pos_5 cut_pos_3 enzyme_name;
    rewrite Hout in Hr; try done; injection Hr as <-; simpl.
  - done.
  - split.
    + split; [done|]. intros Hlen%len_nil_iff. done.
    + intros sites [= <-].
      by rewrite find_restriction_sites_unfold, Hdna, Hrs.
Qed.

Lemma recognition_sites_absent_without_sites_witness :
  ∃ r, digest_dna (lit "ATCGATCG") (lit "GAATTC") 1 None "EcoRI" = Return r ∧
       total_sites r = 0 ∧ recognition_sites r = None.
Proof.
  eexists. split; [vm_compute; reflexivity|].
  split; [vm_compute; reflexivity|].
  apply (recognition_sites_absent_without_sites
           (lit "ATCGATCG") (lit "GAATTC") 1 None "EcoRI" _
           ltac:(vm_compute; reflexivity)).
  vm_compute. reflexivity.
Defined.

(** C9: the normalised sequence is the upper-case, whitespace-free version
    of the input, and digesting that version gives the same outcome as
    digesting the input, for [digest_dna] and for [multiple_digest].  The
    overhang type of a result is "blunt" exactly when the two cut offsets
    are equal, "5' overhang" exactly when the 5' offset is the larger and
    "3' overhang" exactly when it is the smaller (an absent 3' offset
    counts as the 5' one). *)
Theorem normalization_commutes
    dna_seq recognition_seq cut_pos_5 cut_pos_3 enzyme_name enzymes_data :
  normalize dna_seq = upper (strip_whitespace dna_seq) ∧
  digest_dna dna_seq recognition_seq cut_pos_5 cut_pos_3 enzyme_name
  = digest_dna (upper (strip_whitespace dna_seq))
      recognition_seq cut_pos_5 cut_pos_3 enzyme_name ∧
  multiple_digest dna_seq enzymes_data
  = multiple_digest (upper (strip_whitespace dna_seq)) enzymes_data ∧
  ∀ r,
    digest_dna dna_seq recognition_seq cut_pos_5 cut_pos_3 enzyme_name = Return r →
    let cut3 := effective_cut_pos_3 cut_pos_5 cut_pos_3 in
    (overhang_type r = "blunt" ↔ cut_pos_5 = cut3) ∧
    (overhang_type r = "5' overhang" ↔ cut_pos_5 > cut3) ∧
    (overhang_type r = "3' overhang" ↔ cut_pos_5 < cut3).
Proof.
  rewrite <- normalize_upper_strip, digest_dna_normalize, multiple_digest_normalize.
  split; [done|]. split; [done|]. split; [done|].
  intros r Hr.
  digest_outcome dna_seq recognition_seq cut_pos_5 cut_pos_3 enzyme_name;
    rewrite Hout in Hr; try done; injection Hr as <-; simpl;
    exact (get_overhang_type_spec
             (new_RestrictionEnzyme enzyme_name recognition_seq cut_pos_5
                (Some (effective_cut_pos_3 cut_pos_5 cut_pos_3)))).
Qed.

Lemma normalization_commutes_witness :
  ∃ r,
    digest_dna untidy_sequence (lit "gatc") 5 (Some 1) "X" = Return r ∧
    digest_dna (lit "GGATCCGGATCC") (lit "gatc") 5 (Some 1) "X" = Return r ∧
    (overhang_type r = "5' overhang" ↔ 5 > 1).
Proof.
  destruct (normalization_commutes untidy_sequence (lit "gatc") 5 (Some 1) "X" [])
    as (_ & Hsame & _ & Hover).
  eexists. split; [vm_compute; reflexivity|].
  split; [vm_compute; reflexivity|].
  exact (proj1 (proj2 (Hover _ ltac:(vm_compute; reflexivity)))).
Defined.

(** C10: the cut list of a single-enzyme digest is strictly increasing and
    has no duplicate, because the site offsets are strictly increasing and
    the same offset is added to each; sorting it changes nothing. *)
Theorem digest_cut_sites_increasing
    dna_seq recognition_seq cut_pos_5 cut_pos_3 enzyme_name r :
  digest_dna dna_seq recognition_seq cut_pos_5 cut_pos_3 enzyme_name = Return r →
  StronglySorted Z.lt (cut_sites r) ∧
  NoDup (cut_sites r) ∧
  sorted (cut_sites r) = cut_sites r ∧
  ∃ sites,
    find_restriction_sites dna_seq recognition_seq = Return sites ∧
    StronglySorted Z.lt sites ∧ NoDup sites.
Proof.
  intros [Hfind ->]%digest_cut_sites_spec.
  pose proof (scan_sites_increasing (normalize dna_seq) (upper recognition_seq))
    as Hsites.
  pose proof (cut_positions_of_increasing (normalize dna_seq) _ cut_pos_5 Hsites)
    as Hcuts.
  split; [done|]. split; [by apply StronglySorted_lt_NoDup|].
  split; [by apply sorted_increasing|].
  eexists. split; [exact Hfind|]. split; [done|by apply StronglySorted_lt_NoDup].
Qed.

Lemma digest_cut_sites_increasing_witness :
  ∃ r, digest_dna (lit "AAAAT") (lit "AA") 2 None "X" = Return r ∧
       cut_sites r = [2; 3; 4] ∧
       StronglySorted Z.lt (cut_sites r) ∧ NoDup (cut_sites r).
Proof.
  eexists. split; [vm_compute; reflexivity|].
  split; [vm_compute; reflexivity|].
  destruct (digest_cut_sites_increasing (lit "AAAAT") (lit "AA") 2 None "X" _
              ltac:(vm_compute; reflexivity)) as (Hinc & Hnd & _).
  split; [exact Hinc|exact Hnd].
Defined.

(** ** The enzyme registry *)



(** ** Further lemmas on the scan and on lengths *)

Lemma len_upper s : len (upper s) = len s.
Proof. unfold len, upper. by rewrite length_fmap. Qed.

Lemma scan_sites_in_range dna_seq recognition_seq i :
  i ∈ scan_sites dna_seq recognition_seq →
  0 ≤ i ∧ i + len recognition_seq ≤ len dna_seq.
Proof. intros Hi%elem_of_scan_sites%occurs_at_take_drop. lia. Qed.

(** A cut offset inside the pattern puts every cut inside the sequence. *)
Lemma cut_positions_of_validated dna_seq recognition_seq cut_pos_5 :
  0 ≤ cut_pos_5 ≤ len recognition_seq →
  cut_positions_of dna_seq (scan_sites dna_seq recognition_seq) cut_pos_5
  = (λ site, site + cut_pos_5) <$> scan_sites dna_seq recognition_seq.
Proof.
  intros Hc. unfold cut_positions_of. apply filter_Forall_id.
  apply Forall_fmap, Forall_forall. intros i Hi%scan_sites_in_range. simpl. lia.
Qed.

Lemma total_len_concat (fs : list str) : total (len <$> fs) = len (concat fs).
Proof.
  induction fs as [|f fs IH]; [done|].
  simpl. rewrite len_app, <- IH. done.
Qed.

Lemma nonempty_positive_len (fs : list str) :
  Forall (λ f, f ≠ []) fs → Forall (λ l, 0 < l) (len <$> fs).
Proof.
  intros Hne. apply Forall_fmap. eapply Forall_impl; [exact Hne|].
  intros f Hf. simpl. pose proof (len_nonneg f).
  destruct (decide (len f = 0)) as [Hz%len_nil_iff|]; [done|lia].
Qed.

Lemma error_messages_differ : dna_error ≠ recognition_error.
Proof. discriminate. Qed.

(** ** Cut offsets that passed [validate_cut_position] *)

(** X2: when the 5' cut offset passes [validate_cut_position] for the
    pattern, no cut is left out: the cut list of [digest_dna] is the site
    list shifted by the offset, so there are as many cuts as sites; and in
    [multiple_digest] every per-enzyme entry has as many cuts as sites. *)
Theorem validated_cut_keeps_every_site :
  (∀ dna_seq recognition_seq cut_pos_5 cut_pos_3 enzyme_name r,
     validate_cut_position recognition_seq cut_pos_5 = true →
     digest_dna dna_seq recognition_seq cut_pos_5 cut_pos_3 enzyme_name = Return r →
     ∃ sites,
       find_restriction_sites dna_seq recognition_seq = Return sites ∧
       cut_sites r = (λ site, site + cut_pos_5) <$> sites ∧
       len (cut_sites r) = total_sites r) ∧
  (∀ dna_seq enzymes_data m,
     Forall (λ d, validate_cut_position (data_pattern d) (data_cut_pos_5 d) = true)
            enzymes_data →
     multiple_digest dna_seq enzymes_data = Return m →
     Forall (λ e, len (info_cut_positions e) = info_sites e) (enzymes m)).
Proof.
  split.
  - intros dna rs c5 c3 nm r Hv%bool_decide_eq_true Hr.
    rewrite <- len_upper in Hv.
    exists (scan_sites (normalize dna) (upper rs)).
    pose proof (cut_positions_of_validated (normalize dna) (upper rs) c5 Hv) as Hcuts.
    digest_outcome dna rs c5 c3 nm; rewrite Hout in Hr; try done;
      injection Hr as <-; simpl;
      rewrite find_restriction_sites_unfold, Hdna, Hrs; simpl.
    + by rewrite Hsites.
    + rewrite Hcuts. unfold len. by rewrite length_fmap.
  - intros dna ds m Hv Hm.
    multiple_outcome dna ds; rewrite Hout in Hm; try done.
    injection Hm as <-; simpl.
    apply Forall_fmap. eapply Forall_impl; [exact Hv|].
    intros d Hd%bool_decide_eq_true. simpl.
    rewrite <- len_upper in Hd. unfold data_cuts, data_sites.
    rewrite cut_positions_of_validated by done.
    unfold len. by rewrite length_fmap.
Qed.

Lemma validated_cut_keeps_every_site_witness :
  ∃ r sites,
    digest_dna (lit "AAAAT") (lit "AA") 2 None "X" = Return r ∧
    find_restriction_sites (lit "AAAAT") (lit "AA") = Return sites ∧
    cut_sites r = (λ site, site + 2) <$> sites ∧
    len (cut_sites r) = total_sites r.
Proof.
  destruct (proj1 validated_cut_keeps_every_site
              (lit "AAAAT") (lit "AA") 2 None "X" _ eq_refl
              ltac:(vm_compute; reflexivity)) as (sites & Hfind & Hcuts & Hlen).
  eexists. exists sites. split; [vm_compute; reflexivity|].
  split; [exact Hfind|]. split; [exact Hcuts|exact Hlen].
Defined.

(** ** The fragment lengths *)

(** X3: the lengths reported with the fragments are the lengths of the
    fragments, in the same order, and they add up to the length of the
    normalised sequence; each is at least 1, except for the one empty
    fragment of the digest of an empty sequence without sites. *)
Theorem fragment_lengths_add_up :
  (∀ dna_seq recognition_seq cut_pos_5 cut_pos_3 enzyme_name r,
     digest_dna dna_seq recognition_seq cut_pos_5 cut_pos_3 enzyme_name = Return r →
     fragment_lengths r = len <$> fragments r ∧
     total (fragment_lengths r) = len (normalize dna_seq) ∧
     (normalize dna_seq ≠ [] ∨ total_sites r ≠ 0 →
      Forall (λ l, 0 < l) (fragment_lengths r))) ∧
  (∀ dna_seq enzymes_data m,
     multiple_digest dna_seq enzymes_data = Return m →
     multi_fragment_lengths m = len <$> multi_fragments m ∧
     total (multi_fragment_lengths m) = len (normalize dna_seq) ∧
     Forall (λ l, 0 < l) (multi_fragment_lengths m)).
Proof.
  split.
  - intros dna rs c5 c3 nm r Hr.
    digest_outcome dna rs c5 c3 nm; rewrite Hout in Hr; try done;
      injection Hr as <-; simpl.
    + split; [done|]. split; [lia|].
      intros [Hne|Hne]; [|done]. repeat constructor.
      pose proof (len_nonneg (normalize dna)).
      destruct (decide (len (normalize dna) = 0)) as [Hz%len_nil_iff|]; [done|lia].
    + destruct (digest_cuts_partition (normalize dna)
                  (scan_sites (normalize dna) (upper rs)) c5) as [Hcat Hne].
      split; [done|]. rewrite total_len_concat, Hcat.
      split; [done|]. intros _. by apply nonempty_positive_len.
  - intros dna ds m Hm.
    multiple_outcome dna ds; rewrite Hout in Hm; try done.
    injection Hm as <-; simpl.
    destruct (merged_cuts_partition (normalize dna) ds) as [Hcat Hne].
    split; [done|]. rewrite total_len_concat, Hcat.
    split; [done|]. by apply nonempty_positive_len.
Qed.

Lemma fragment_lengths_add_up_witness :
  ∃ r, digest_dna untidy_sequence (lit "GGATCC") 1 None "BamHI" = Return r ∧
       fragment_lengths r = [1; 6; 5] ∧
       total (fragment_lengths r) = len (normalize untidy_sequence).
Proof.
  eexists. split; [vm_compute; reflexivity|].
  split; [vm_compute; reflexivity|].
  exact (proj1 (proj2 (proj1 fragment_lengths_add_up
           untidy_sequence (lit "GGATCC") 1 None "BamHI" _
           ltac:(vm_compute; reflexivity)))).
Defined.

(** ** Which error is raised *)

(** X4: the sequence is checked before the pattern.  [digest_dna] raises
    the error about the DNA sequence exactly when the normalised sequence has
    a character outside {A,T,C,G}, whatever the pattern is, and the error
    about the recognition sequence exactly when the sequence is valid and the
    upper-cased pattern is not; it raises nothing else.  The same holds for
    [multiple_digest] on a non-empty descriptor list, the pattern error being
    raised when some descriptor has an invalid pattern. *)
Theorem error_message_precedence :
  (∀ dna_seq recognition_seq cut_pos_5 cut_pos_3 enzyme_name,
     let outcome :=
       digest_dna dna_seq recognition_seq cut_pos_5 cut_pos_3 enzyme_name in
     (outcome = Raise dna_error ↔ has_invalid (normalize dna_seq)) ∧
     (outcome = Raise recognition_error ↔
      ¬ has_invalid (normalize dna_seq) ∧ has_invalid (upper recognition_seq)) ∧
     (∀ msg, outcome = Raise msg → msg = dna_error ∨ msg = recognition_error)) ∧
  (∀ dna_seq enzymes_data,
     enzymes_data ≠ [] →
     let outcome := multiple_digest dna_seq enzymes_data in
     (outcome = Raise dna_error ↔ has_invalid (normalize dna_seq)) ∧
     (outcome = Raise recognition_error ↔
      ¬ has_invalid (normalize dna_seq) ∧
      ∃ d, d ∈ enzymes_data ∧ has_invalid (upper (data_pattern d))) ∧
     (∀ msg, outcome = Raise msg → msg = dna_error ∨ msg = recognition_error)).
Proof.
  pose proof error_messages_differ as Hdiff.
  split.
  - intros dna rs c5 c3 nm. simpl. rewrite <- !all_valid_false.
    digest_outcome dna rs c5 c3 nm; rewrite Hout, Hdna, ?Hrs;
      (split; [|split]); try (intros msg); split_and?;
      try (intros [= <-]); intuition congruence.
  - intros dna ds Hds. simpl.
    rewrite <- patterns_valid_false, <- all_valid_false.
    multiple_outcome dna ds; rewrite Hout, ?Hdna, ?Hpat.
    + (split; [|split]); try (intros msg); split_and?;
        try (intros [= <-]); intuition congruence.
    + (split; [|split]); try (intros msg); split_and?;
        try (intros [= <-]); intuition congruence.
    + destruct Hok as [->|[Hdna Hpat]]; [done|]. rewrite Hdna, Hpat.
      (split; [|split]); try (intros msg); split_and?; intuition congruence.
Qed.

Lemma error_message_precedence_witness :
  digest_dna (lit "ATCGX") (lit "ATN") 0 None "Test" = Raise dna_error ∧
  multiple_digest (lit "ATCG") [("a", lit "AT", 0, None); ("b", lit "ATN", 0, None)]
  = Raise recognition_error.
Proof.
  split.
  - apply (proj1 error_message_precedence (lit "ATCGX") (lit "ATN") 0 None "Test").
    apply all_valid_false. vm_compute. reflexivity.
  - apply (proj2 error_message_precedence (lit "ATCG")
             [("a", lit "AT", 0, None); ("b", lit "ATN", 0, None)]);
      [discriminate|]. split.
    + intros Hinv%all_valid_false. vm_compute in Hinv. discriminate.
    + apply patterns_valid_false. vm_compute. reflexivity.
Defined.

(** ** The case of the pattern *)

(** X5: the pattern is matched without regard to case.  Digesting with a
    pattern and with its upper-case version gives the same error, or two
    results that agree on the sites, cuts, fragments, lengths, site count and
    overhang type and differ at most in the pattern they echo, which is the
    pattern as it was passed. *)
Theorem pattern_case_insensitive
    dna_seq recognition_seq cut_pos_5 cut_pos_3 enzyme_name :
  match digest_dna dna_seq recognition_seq cut_pos_5 cut_pos_3 enzyme_name,
        digest_dna dna_seq (upper recognition_seq) cut_pos_5 cut_pos_3 enzyme_name
  with
  | Return r, Return r' =>
      recognition_sequence r = recognition_seq ∧
      recognition_sequence r' = upper recognition_seq ∧
      recognition_sites r = recognition_sites r' ∧
      total_sites r = total_sites r' ∧
      cut_sites r = cut_sites r' ∧
      fragments r = fragments r' ∧
      fragment_lengths r = fragment_lengths r' ∧
      overhang_type r = overhang_type r' ∧
      enzyme r = enzyme r'
  | Raise msg, Raise msg' => msg = msg'
  | _, _ => False
  end.
Proof.
  pose proof (digest_dna_cases dna_seq (upper recognition_seq)
                cut_pos_5 cut_pos_3 enzyme_name) as Hupper.
  cbv zeta in Hupper. rewrite upper_idem in Hupper.
  digest_outcome dna_seq recognition_seq cut_pos_5 cut_pos_3 enzyme_name;
    destruct Hupper as [(Hdna' & Hout') | [(Hdna' & Hrs' & Hout') |
      [(Hdna' & Hrs' & Hsites' & Hout') | (Hdna' & Hrs' & Hsites' & Hout')]]];
    rewrite Hout, Hout'; try done; congruence.
Qed.

(** ** [multiple_digest] and the digests of its descriptors *)

(** X6: the per-enzyme entries of a multiple digest come one per descriptor,
    in the order of the descriptors, and each agrees with the digest of the
    sequence by that descriptor alone: that digest returns, and the entry
    has its name, the pattern it echoes, its site count and its cut list. *)
Theorem multiple_digest_entries_match_digests dna_seq enzymes_data m :
  multiple_digest dna_seq enzymes_data = Return m →
  Forall2
    (λ e d, ∀ cut_pos_3 enzyme_name, ∃ r,
       digest_dna dna_seq (data_pattern d) (data_cut_pos_5 d) cut_pos_3 enzyme_name
         = Return r ∧
       info_name e = data_name d ∧
       info_recognition_seq e = recognition_sequence r ∧
       info_sites e = total_sites r ∧
       info_cut_positions e = cut_sites r)
    (enzymes m) enzymes_data.
Proof.
  intros Hm.
  multiple_outcome dna_seq enzymes_data; rewrite Hout in Hm; try done.
  injection Hm as <-; simpl. clear Hout.
  apply Forall2_fmap_l, Forall_Forall2_diag, Forall_forall.
  intros d Hd c3 nm. simpl.
  destruct Hok as [->|[Hvalid Hpat]]; [by apply elem_of_nil in Hd|].
  pose proof (patterns_valid_true _ _ Hpat Hd) as Hpd.
  unfold data_cuts, data_sites.
  digest_outcome dna_seq (data_pattern d) (data_cut_pos_5 d) c3 nm;
    try congruence; eexists; (split; [exact Hout|]); simpl.
  - by rewrite Hsites.
  - done.
Qed.

Lemma multiple_digest_entries_match_digests_witness :
  ∃ m, multiple_digest (lit "GGATCCGGATCC")
         [("a", lit "GGATCC", 1, None); ("b", lit "GATC", 0, Some 4)] = Return m ∧
       Forall2
         (λ e d, ∃ r,
            digest_dna (lit "GGATCCGGATCC") (data_pattern d) (data_cut_pos_5 d)
              None "x" = Return r ∧
            info_sites e = total_sites r ∧ info_cut_positions e = cut_sites r)
         (enzymes m)
         [("a", lit "GGATCC", 1, None); ("b", lit "GATC", 0, Some 4)].
Proof.
  eexists. split; [vm_compute; reflexivity|].
  eapply Forall2_impl.
  - apply (multiple_digest_entries_match_digests (lit "GGATCCGGATCC")
             [("a", lit "GGATCC", 1, None); ("b", lit "GATC", 0, Some 4)]).
    vm_compute. reflexivity.
  - intros e d H. destruct (H None "x") as (r & Hr & _ & _ & Hs & Hc). eauto.
Defined.

Lemma sorted_set_increasing l :
  StronglySorted Z.lt l → sorted (elements (list_to_set l : gset Z)) = l.
Proof.
  intros Hl. apply (Sorted_unique Z.le).
  - apply sorted_Sorted.
  - apply StronglySorted_Sorted.
    eapply (StronglySorted_fmap id Z.lt Z.le) in Hl.
    + by rewrite list_fmap_id in Hl.
    + intros x y. simpl. lia.
  - rewrite sorted_Permutation. apply elements_list_to_set.
    by apply StronglySorted_lt_NoDup.
Qed.

Lemma generate_fragments_no_cut dna_seq :
  generate_fragments dna_seq [] = if decide (dna_seq = []) then [] else [dna_seq].
Proof.
  unfold generate_fragments. simpl.
  destruct (decide (dna_seq = [])) as [->|Hne]; [done|].
  pose proof (len_nonneg dna_seq).
  assert (len dna_seq ≠ 0) by by rewrite len_nil_iff.
  rewrite bool_decide_eq_true_2 by lia. by rewrite slice_from_in_range by lia.
Qed.

Lemma concat_nil_nonempty (fs : list str) :
  concat fs = [] → Forall (λ f, f ≠ []) fs → fs = [].
Proof.
  destruct fs as [|f fs]; [done|]. simpl.
  intros [Hf _]%app_eq_nil [Hne _]%Forall_cons. done.
Qed.

(** X7: a multiple digest with a single descriptor has the cut list of the
    digest by that descriptor, and its fragments and lengths when the
    normalised sequence is not empty.  On an empty sequence the multiple
    digest has no fragment, while the single digest reports one empty
    fragment when it finds no site. *)
Theorem single_descriptor_multiple_digest
    dna_seq enzyme_name recognition_seq cut_pos_5 cut_pos_3 m :
  multiple_digest dna_seq [(enzyme_name, recognition_seq, cut_pos_5, cut_pos_3)]
    = Return m →
  ∃ r,
    digest_dna dna_seq recognition_seq cut_pos_5 cut_pos_3 enzyme_name = Return r ∧
    cut_positions m = cut_sites r ∧
    total_cuts m = len (cut_sites r) ∧
    (normalize dna_seq ≠ [] →
     multi_fragments m = fragments r ∧
     multi_fragment_lengths m = fragment_lengths r) ∧
    (normalize dna_seq = [] →
     multi_fragments m = [] ∧
     (total_sites r = 0 → fragments r = [[]])).
Proof.
  intros Hm.
  multiple_outcome dna_seq [(enzyme_name, recognition_seq, cut_pos_5, cut_pos_3)];
    rewrite Hout in Hm; try done.
  injection Hm as <-; simpl. clear Hout.
  destruct Hok as [?|[Hvalid Hpat]]; [done|].
  simpl in Hpat. rewrite andb_true_r in Hpat.
  unfold data_pattern in Hpat. simpl in Hpat.
  unfold merged_cuts. simpl. rewrite app_nil_r.
  unfold data_cuts, data_sites, data_pattern, data_cut_pos_5. simpl.
  rewrite sorted_set_increasing
    by apply cut_positions_of_increasing, scan_sites_increasing.
  digest_outcome dna_seq recognition_seq cut_pos_5 cut_pos_3 enzyme_name;
    try congruence; eexists; (split; [exact Hout|]); simpl.
  - rewrite Hsites. simpl. rewrite generate_fragments_no_cut.
    split; [done|]. split; [done|]. split.
    + intros Hne. by rewrite decide_False.
    + intros Hnil. rewrite decide_True by done. by rewrite Hnil.
  - split; [done|]. split; [done|].
    set (cuts := cut_positions_of _ _ _).
    assert (sorted cuts = cuts) as Hsorted
      by apply sorted_increasing, cut_positions_of_increasing, scan_sites_increasing.
    rewrite Hsorted.
    destruct (generate_fragments_partition (normalize dna_seq) cuts)
      as [Hcat Hne].
    { rewrite <- Hsorted. apply sorted_Sorted. }
    { apply Forall_forall. intros c Hc.
      by apply elem_of_cut_positions_of in Hc as [Hc _]. }
    rewrite filter_Forall_id by done. split; [done|].
    intros Hnil. split.
    + apply concat_nil_nonempty; [|done]. by rewrite Hcat.
    + intros Hlen%len_nil_iff. done.
Qed.

Lemma single_descriptor_multiple_digest_witness :
  ∃ m r,
    multiple_digest (lit "GGATCCGGATCC") [("a", lit "GGATCC", 1, None)] = Return m ∧
    digest_dna (lit "GGATCCGGATCC") (lit "GGATCC") 1 None "a" = Return r ∧
    cut_positions m = cut_sites r ∧
    multi_fragments m = fragments r.
Proof.
  destruct (single_descriptor_multiple_digest
              (lit "GGATCCGGATCC") "a" (lit "GGATCC") 1 None _
              ltac:(vm_compute; reflexivity))
    as (r & Hr & Hcuts & _ & Hfrags & _).
  eexists. exists r. split; [vm_compute; reflexivity|].
  split; [exact Hr|]. split; [exact Hcuts|].
  apply Hfrags. vm_compute. discriminate.
Defined.

(** ** Adding descriptors *)

(** X8: descriptors added to a multiple digest only add cuts: every cut of
    the digest by a list of descriptors is a cut of the digest by a longer
    list, and the cut count does not go down. *)
Theorem more_descriptors_more_cuts dna_seq enzymes_data more m m' :
  multiple_digest dna_seq enzymes_data = Return m →
  multiple_digest dna_seq (enzymes_data ++ more) = Return m' →
  (∀ c, c ∈ cut_positions m → c ∈ cut_positions m') ∧
  total_cuts m ≤ total_cuts m'.
Proof.
  intros Hm Hm'.
  multiple_outcome dna_seq enzymes_data; rewrite Hout in Hm; try done.
  injection Hm as <-. clear Hout Hok.
  multiple_outcome dna_seq (enzymes_data ++ more); rewrite Hout in Hm'; try done.
  injection Hm' as <-. simpl.
  assert (∀ c, c ∈ merged_cuts (normalize dna_seq) enzymes_data →
               c ∈ merged_cuts (normalize dna_seq) (enzymes_data ++ more)) as Hsub.
  { intros c (d & Hd & Hc)%elem_of_merged_cuts. apply elem_of_merged_cuts.
    exists d. split; [|done]. apply elem_of_app. by left. }
  split; [done|]. unfold len. apply inj_le, submseteq_length, NoDup_submseteq.
  - apply StronglySorted_lt_NoDup, merged_cuts_increasing.
  - done.
Qed.

Lemma more_descriptors_more_cuts_witness :
  ∃ m m',
    multiple_digest (lit "GGATCCGGATCC") [("a", lit "GGATCC", 1, None)] = Return m ∧
    multiple_digest (lit "GGATCCGGATCC")
      [("a", lit "GGATCC", 1, None); ("c", lit "CC", 1, None)] = Return m' ∧
    total_cuts m ≤ total_cuts m'.
Proof.
  do 2 eexists. split; [vm_compute; reflexivity|].
  split; [vm_compute; reflexivity|].
  exact (proj2 (more_descriptors_more_cuts (lit "GGATCCGGATCC")
           [("a", lit "GGATCC", 1, None)] [("c", lit "CC", 1, None)] _ _
           ltac:(vm_compute; reflexivity) ltac:(vm_compute; reflexivity))).
Defined.

(** ** Where the fragments end *)

Lemma generate_fragments_add_final dna_seq cuts :
  generate_fragments dna_seq cuts
  = add_final_fragment dna_seq (fold_left (cut_step dna_seq) cuts ([], 0)).
Proof.
  unfold generate_fragments, add_final_fragment.
  by destruct (fold_left _ _ _) as [fragments start].
Qed.

Lemma total_app ls ls' : total (ls ++ ls') = total ls + total ls'.
Proof. induction ls as [|l ls IH]; simpl; lia. Qed.

Lemma end_offsets_app start ls ls' :
  end_offsets start (ls ++ ls')
  = end_offsets start ls ++ end_offsets (start + total ls) ls'.
Proof.
  revert start. induction ls as [|l ls IH]; intros start; simpl.
  - by rewrite Z.add_0_r.
  - rewrite IH. do 3 f_equal. lia.
Qed.

Lemma length_end_offsets start ls : length (end_offsets start ls) = length ls.
Proof. revert start. induction ls as [|l ls IH]; intros start; simpl; auto. Qed.

Section offsets.
Variable dna_seq : str.
Hypothesis dna_nonempty : 0 < len dna_seq.

(** From a loop state whose fragments spell the sequence up to the cursor,
    the remaining cuts, all behind the cursor, become the further end
    offsets, and the end of the sequence is the last one. *)
Lemma cut_loop_end_offsets cuts fragments start :
  0 ≤ start ≤ len dna_seq →
  StronglySorted Z.lt (start :: cuts) →
  Forall (λ c, c ≤ len dna_seq) cuts →
  total (len <$> fragments) = start →
  end_offsets 0
    (len <$> add_final_fragment dna_seq
               (fold_left (cut_step dna_seq) cuts (fragments, start)))
  = end_offsets 0 (len <$> fragments)
    ++ filter (λ c, c < len dna_seq) cuts
    ++ (if bool_decide (start < len dna_seq) then [len dna_seq] else []).
Proof.
  revert fragments start.
  induction cuts as [|c cuts IH]; intros fragments start Hstart Hsorted Hle Htotal.
  - simpl. unfold add_final_fragment. simpl. case_bool_decide as Hlt.
    + rewrite fmap_app, end_offsets_app, Htotal. simpl.
      rewrite slice_from_in_range by lia.
      assert (len (drop (Z.to_nat start) dna_seq) = len dna_seq - start) as ->.
      { unfold len in *. rewrite length_drop. lia. }
      by replace (0 + start + (len dna_seq - start)) with (len dna_seq) by lia.
    + by rewrite app_nil_r.
  - apply StronglySorted_inv in Hsorted as [Hsorted Hall].
    apply Forall_cons in Hall as [Hc Hall].
    apply Forall_cons in Hle as [Hcle Hle].
    simpl. rewrite bool_decide_eq_true_2 by done.
    rewrite IH; [|lia|done|done|].
    + rewrite fmap_app, end_offsets_app, Htotal. simpl.
      rewrite slice_in_range by lia.
      assert (len (take (Z.to_nat (c - start)) (drop (Z.to_nat start) dna_seq))
              = c - start) as ->.
      { unfold len in *. rewrite length_take, length_drop. lia. }
      replace (0 + start + (c - start)) with c by lia.
      rewrite (bool_decide_eq_true_2 (start < len dna_seq)) by lia.
      rewrite filter_cons. destruct (decide (c < len dna_seq)) as [Hlt|Hge].
      * rewrite bool_decide_eq_true_2 by done. by rewrite <- !app_assoc.
      * rewrite bool_decide_eq_false_2 by done.
        assert (c = len dna_seq) as Hend by lia.
        destruct cuts as [|c' cuts];
          [rewrite filter_nil, !app_nil_r; simpl; by rewrite Hend|].
        apply StronglySorted_inv in Hsorted as [_ Hc'].
        apply Forall_cons in Hc' as [Hc' _]. apply Forall_cons in Hle as [? _]. lia.
    + rewrite fmap_app, total_app, Htotal. simpl.
      rewrite slice_in_range by lia. unfold len in *.
      rewrite length_take, length_drop. lia.
Qed.

Lemma generate_fragments_end_offsets cuts :
  StronglySorted Z.lt cuts →
  Forall (λ c, 0 ≤ c ≤ len dna_seq) cuts →
  end_offsets 0 (len <$> generate_fragments dna_seq cuts)
  = interior_cuts dna_seq cuts ++ [len dna_seq].
Proof.
  intros Hsorted Hrange. rewrite generate_fragments_add_final.
  unfold interior_cuts.
  assert (∀ cuts', StronglySorted Z.lt (0 :: cuts') →
            Forall (λ c, 0 ≤ c ≤ len dna_seq) cuts' →
            end_offsets 0
              (len <$> add_final_fragment dna_seq
                 (fold_left (cut_step dna_seq) cuts' ([], 0)))
            = filter (λ c, 0 < c < len dna_seq) cuts' ++ [len dna_seq]) as Hpos.
  { intros cuts' Hs Hr. rewrite cut_loop_end_offsets; [|lia|done| |done].
    - simpl. rewrite bool_decide_eq_true_2 by done. f_equal.
      apply StronglySorted_inv in Hs as [_ Hs].
      clear Hr. induction Hs as [|c cuts'' Hc Hcs IH]; [done|].
      rewrite !filter_cons, IH.
      destruct (decide (c < len dna_seq)), (decide (0 < c < len dna_seq));
        (done || lia).
    - eapply Forall_impl; [exact Hr|]. simpl. lia. }
  destruct cuts as [|c cuts]; [apply Hpos; [repeat constructor|done]|].
  apply Forall_cons in Hrange as Hrange'. destruct Hrange' as [Hc Hrange'].
  destruct (decide (c = 0)) as [->|Hne].
  - simpl. rewrite filter_cons_False by lia. by apply Hpos.
  - apply Hpos; [|done]. constructor; [done|].
    apply StronglySorted_inv in Hsorted as [_ Hall].
    constructor; [lia|]. eapply Forall_impl; [exact Hall|]. simpl. lia.
Qed.

End offsets.

Lemma increasing_Sorted_le l : StronglySorted Z.lt l → Sorted Z.le l.
Proof.
  intros Hl. apply StronglySorted_Sorted.
  eapply (StronglySorted_fmap id Z.lt Z.le) in Hl.
  - by rewrite list_fmap_id in Hl.
  - intros x y. simpl. lia.
Qed.

Lemma len_interior_cuts dna_seq cuts :
  len (interior_cuts dna_seq cuts) ≤ len cuts.
Proof. unfold len, interior_cuts. apply inj_le, length_filter. Qed.

Lemma len_cut_positions_of dna_seq sites cut_pos_5 :
  len (cut_positions_of dna_seq sites cut_pos_5) ≤ len sites.
Proof.
  unfold len, cut_positions_of. apply inj_le.
  etrans; [apply length_filter|]. by rewrite length_fmap.
Qed.

Lemma len_end_offsets_fragments (fs : list str) cuts x :
  end_offsets 0 (len <$> fs) = cuts ++ [x] → len fs = len cuts + 1.
Proof.
  intros Heq%(f_equal length). revert Heq.
  rewrite length_end_offsets, length_fmap, length_app. unfold len. simpl. lia.
Qed.

(** X9: for a sequence that is not empty after normalisation, the fragments
    end where the cuts are: the running sums of the reported fragment
    lengths are the cut coordinates strictly inside the sequence, in order,
    followed by the length of the sequence.  A cut at offset 0 or at the end
    of the sequence separates nothing, so there is one fragment more than
    there are cuts strictly inside, and at most one more than there are
    sites (single digest) or cuts (multiple digest). *)
Theorem fragments_end_at_cuts :
  (∀ dna_seq recognition_seq cut_pos_5 cut_pos_3 enzyme_name r,
     normalize dna_seq ≠ [] →
     digest_dna dna_seq recognition_seq cut_pos_5 cut_pos_3 enzyme_name = Return r →
     end_offsets 0 (fragment_lengths r)
       = interior_cuts (normalize dna_seq) (cut_sites r) ++ [len (normalize dna_seq)] ∧
     len (fragments r) = len (interior_cuts (normalize dna_seq) (cut_sites r)) + 1 ∧
     len (fragments r) ≤ total_sites r + 1) ∧
  (∀ dna_seq enzymes_data m,
     normalize dna_seq ≠ [] →
     multiple_digest dna_seq enzymes_data = Return m →
     end_offsets 0 (multi_fragment_lengths m)
       = interior_cuts (normalize dna_seq) (cut_positions m)
         ++ [len (normalize dna_seq)] ∧
     len (multi_fragments m)
       = len (interior_cuts (normalize dna_seq) (cut_positions m)) + 1 ∧
     len (multi_fragments m) ≤ total_cuts m + 1).
Proof.
  split.
  - intros dna rs c5 c3 nm r Hne Hr.
    assert (0 < len (normalize dna)) as Hpos.
    { pose proof (len_nonneg (normalize dna)).
      destruct (decide (len (normalize dna) = 0)) as [Hz%len_nil_iff|]; [done|lia]. }
    digest_outcome dna rs c5 c3 nm; rewrite Hout in Hr; try done;
      injection Hr as <-; simpl.
    + split; [done|]. split; [done|]. unfold len. simpl. lia.
    + set (sites := scan_sites (normalize dna) (upper rs)).
      set (cuts := cut_positions_of (normalize dna) sites c5).
      assert (StronglySorted Z.lt cuts) as Hinc
        by apply cut_positions_of_increasing, scan_sites_increasing.
      assert (Forall (λ c, 0 ≤ c ≤ len (normalize dna)) cuts) as Hrange.
      { apply Forall_forall. intros c Hc.
        by apply elem_of_cut_positions_of in Hc as [Hc _]. }
      rewrite sorted_increasing by done.
      destruct (generate_fragments_partition (normalize dna) cuts) as [_ Hall];
        [by apply increasing_Sorted_le|done|].
      rewrite filter_Forall_id by done.
      pose proof (generate_fragments_end_offsets (normalize dna) Hpos cuts
                    Hinc Hrange) as Hends.
      split; [done|]. apply len_end_offsets_fragments in Hends.
      split; [done|].
      pose proof (len_interior_cuts (normalize dna) cuts).
      pose proof (len_cut_positions_of (normalize dna) sites c5).
      fold cuts in H0. lia.
  - intros dna ds m Hnonempty Hm.
    assert (0 < len (normalize dna)) as Hpos.
    { pose proof (len_nonneg (normalize dna)).
      destruct (decide (len (normalize dna) = 0)) as [Hz%len_nil_iff|]; [done|lia]. }
    multiple_outcome dna ds; rewrite Hout in Hm; try done.
    injection Hm as <-; simpl.
    pose proof (generate_fragments_end_offsets (normalize dna) Hpos
                  (merged_cuts (normalize dna) ds)
                  (merged_cuts_increasing _ _) (merged_cuts_in_range _ _)) as Hends.
    split; [done|]. apply len_end_offsets_fragments in Hends.
    split; [done|].
    pose proof (len_interior_cuts (normalize dna) (merged_cuts (normalize dna) ds)).
    lia.
Qed.

Lemma fragments_end_at_cuts_witness :
  ∃ r, digest_dna (lit "ATGGATCCAT") (lit "AT") 0 None "X" = Return r ∧
       cut_sites r = [0; 4; 8] ∧
       fragment_lengths r = [4; 4; 2] ∧
       end_offsets 0 (fragment_lengths r)
         = interior_cuts (normalize (lit "ATGGATCCAT")) (cut_sites r) ++ [10].
Proof.
  eexists. split; [vm_compute; reflexivity|].
  split; [vm_compute; reflexivity|]. split; [vm_compute; reflexivity|].
  refine (proj1 (proj1 fragments_end_at_cuts
            (lit "ATGGATCCAT") (lit "AT") 0 None "X" _ _
            ltac:(vm_compute; reflexivity))).
  vm_compute. discriminate.
Defined.

(** ** Printing a digest *)

Lemma length_print_fragments i pairs :
  length (print_fragments i pairs) = (2 * length pairs)%nat.
Proof.
  revert i. induction pairs as [|[fragment l] pairs IH]; intros i; [done|].
  simpl. rewrite IH. lia.
Qed.

(** X10: [print_digest_results] on a result of [digest_dna] ends in the
    [KeyError] of the missing ['recognition_sites'] key exactly when the
    digest found no site; it has then printed the four heading lines and
    nothing about the fragments.  When a site was found it ends normally
    and prints seven lines and two lines for each fragment. *)
Theorem print_digest_results_key_error
    dna_seq recognition_seq cut_pos_5 cut_pos_3 enzyme_name r :
  digest_dna dna_seq recognition_seq cut_pos_5 cut_pos_3 enzyme_name = Return r →
  let printed := print_digest_results r in
  (total_sites r = 0 →
   printed.2 = Some (KeyError "recognition_sites") ∧ length printed.1 = 4%nat) ∧
  (total_sites r ≠ 0 →
   printed.2 = None ∧
   length printed.1 = (7 + 2 * length (fragments r))%nat).
Proof.
  intros Hr.
  digest_outcome dna_seq recognition_seq cut_pos_5 cut_pos_3 enzyme_name;
    rewrite Hout in Hr; try done; injection Hr as <-; simpl.
  - done.
  - split; [intros Hlen%len_nil_iff; done|]. intros _.
    unfold print_digest_results. simpl.
    destruct (scan_sites (normalize dna_seq) (upper recognition_seq))
      as [|site sites]; [done|].
    split; [done|]. simpl. do 7 f_equal.
    rewrite length_print_fragments, length_zip, length_fmap. lia.
Qed.

Lemma print_digest_results_key_error_witness :
  ∃ r, digest_dna (lit "ATCGATCG") (lit "GAATTC") 1 None "EcoRI" = Return r ∧
       (print_digest_results r).2 = Some (KeyError "recognition_sites") ∧
       length (print_digest_results r).1 = 4%nat.
Proof.
  eexists. split; [vm_compute; reflexivity|].
  apply (print_digest_results_key_error
           (lit "ATCGATCG") (lit "GAATTC") 1 None "EcoRI" _
           ltac:(vm_compute; reflexivity)).
  vm_compute. reflexivity.
Defined.

(** ** What [get_user_input] lets through *)

Lemma lstrip_visible s : lstrip s ≠ [] → ∃ c s', lstrip s = c :: s' ∧ is_whitespace c = false.
Proof.
  induction s as [|c s IH]; [done|]. simpl.
  destruct (is_whitespace c) eqn:Hc; [done|]. intros _. eauto.
Qed.

Lemma strip_visible s : strip s ≠ [] → has_visible (strip s).
Proof.
  unfold strip. intros Hne.
  destruct (lstrip_visible (reverse (lstrip s))) as (c & s' & Heq & Hc).
  { intros Hnil. by rewrite Hnil in Hne. }
  rewrite Heq. exists c. split; [|done].
  rewrite reverse_cons. apply elem_of_app. right. by apply list_elem_of_singleton.
Qed.

Lemma visible_kept_bool c :
  is_whitespace c = false → bool_decide (kept (upper_char c)) = true.
Proof. destruct c as [[] [] [] [] [] [] [] []]; by vm_compute. Qed.

Lemma normalize_visible dna_lines :
  dna_lines ≠ [] → Forall has_visible dna_lines →
  normalize (concat dna_lines) ≠ [].
Proof.
  intros Hne Hall. destruct dna_lines as [|line dna_lines]; [done|].
  apply Forall_cons in Hall as [(c & Hc & Hvis) _].
  apply (elem_of_not_nil (upper_char c)).
  rewrite normalize_filter. apply list_elem_of_filter. split.
  - apply (bool_decide_eq_true_1 (kept (upper_char c))).
    by apply visible_kept_bool.
  - unfold upper. apply list_elem_of_fmap_2. simpl. apply elem_of_app. by left.
Qed.

Lemma all_in_ATCG_all_valid s : all_in_ATCG s = all_valid s.
Proof.
  unfold all_in_ATCG, all_valid. induction s as [|c s IH]; [done|].
  cbn [forallb]. rewrite IH. f_equal. apply bool_decide_ext.
  rewrite elem_of_valid_bases. unfold is_base, lit. simpl.
  rewrite !elem_of_cons, elem_of_nil. tauto.
Qed.

Lemma string_of_list_ascii_nonempty s : s ≠ [] → string_of_list_ascii s ≠ EmptyString.
Proof. by destruct s. Qed.

Lemma checked_enzyme_intro name recognition_seq cut_pos_5 cut_pos_3 :
  name ≠ [] →
  checked_pattern recognition_seq →
  validate_cut_position recognition_seq cut_pos_5 = true →
  (∀ c, cut_pos_3 = Some c → validate_cut_position recognition_seq c = true) →
  checked_enzyme (string_of_list_ascii name, recognition_seq, cut_pos_5, cut_pos_3).
Proof.
  intros Hname Hrs Hc5 Hc3. unfold checked_enzyme. simpl.
  split; [by apply string_of_list_ascii_nonempty|]. by split.
Qed.

Section interactive_checks.
Variable int : str → option Z.

Lemma after_input_checked w line :
  waiting_checked w →
  match (after_input int w line).2 with
  | inl w' => waiting_checked w'
  | inr value => checked_input value
  end ∧
  no_dna_message ∉ (after_input int w line).1.
Proof.
  destruct w as [dna_lines | dna enzymes | dna enzymes name | dna enzymes name rs
                | dna enzymes name rs c5 | dna enzymes name rs c5 | dna enzymes];
    simpl; intros Hw.
  - destruct (decide (strip line = [])) as [Hline|Hline].
    + rewrite (bool_decide_eq_true_2 _ Hline).
      destruct (decide (dna_lines = [])) as [->|Hlines].
      * simpl. split; [done|]. apply not_elem_of_nil.
      * rewrite (bool_decide_eq_false_2 _ Hlines). simpl.
        pose proof (normalize_visible dna_lines Hlines Hw) as Hdna.
        rewrite (bool_decide_eq_false_2 _ Hdna). simpl. split.
        -- split; [|constructor]. split; [done|apply normalize_idem].
        -- rewrite !elem_of_cons, elem_of_nil. unfold no_dna_message.
           intros [[=]|[Heq|[]]]. by destruct (bool_decide _).
    + rewrite (bool_decide_eq_false_2 _ Hline). simpl. split.
      * apply Forall_app. split; [done|]. apply Forall_singleton.
        by apply strip_visible.
      * apply not_elem_of_nil.
  - case_bool_decide; simpl; (split; [|apply not_elem_of_nil]).
    + destruct Hw as [Hdna Henz]. by exists dna, enzymes.
    + by destruct Hw.
  - destruct Hw as (Hdna & Henz & Hname).
    case_bool_decide as Hrs; simpl.
    { split; [done|]. rewrite list_elem_of_singleton. by intros [=]. }
    destruct (all_in_ATCG (upper (strip line))) eqn:Hvalid; simpl.
    + split; [|apply not_elem_of_nil].
      do 3 (split; [done|]). split; [done|].
      split; [apply upper_idem|by rewrite <- all_in_ATCG_all_valid].
    + split; [done|]. rewrite list_elem_of_singleton. by intros [=].
  - destruct Hw as (Hdna & Henz & Hname & Hrs).
    destruct (int line) as [c5|]; simpl.
    + destruct (validate_cut_position rs c5) eqn:Hv; simpl.
      * split; [done|apply not_elem_of_nil].
      * split; [done|]. rewrite list_elem_of_singleton. by intros [=].
    + split; [done|]. rewrite list_elem_of_singleton. by intros [=].
  - destruct Hw as (Hdna & Henz & Hname & Hrs & Hc5).
    case_bool_decide; simpl; (split; [|apply not_elem_of_nil]); [done|].
    split; [done|]. apply Forall_app. split; [done|]. apply Forall_singleton.
    by apply checked_enzyme_intro.
  - destruct Hw as (Hdna & Henz & Hname & Hrs & Hc5).
    destruct (int line) as [c3|]; simpl.
    + destruct (validate_cut_position rs c3) eqn:Hv; simpl.
      * split; [|apply not_elem_of_nil].
        split; [done|]. apply Forall_app. split; [done|]. apply Forall_singleton.
        apply checked_enzyme_intro; try done. by intros ? [= <-].
      * split; [done|]. rewrite list_elem_of_singleton. by intros [=].
    + split; [done|]. rewrite list_elem_of_singleton. by intros [=].
  - case_bool_decide; simpl; (split; [|apply not_elem_of_nil]).
    + destruct Hw as [Hdna Henz]. by exists dna, enzymes.
    + done.
Qed.

Lemma on_reaching_no_dna_message w : no_dna_message ∉ on_reaching w.
Proof.
  destruct w; simpl; rewrite ?elem_of_cons, elem_of_nil; unfold no_dna_message;
    intros H; decompose [or] H; try done; discriminate.
Qed.

Lemma run_input_checked stdin w :
  waiting_checked w →
  match (run_input int w stdin).2 with
  | inl e => e = EOFError
  | inr (value, _) => checked_input value
  end ∧
  no_dna_message ∉ (run_input int w stdin).1.
Proof.
  revert w. induction stdin as [|line stdin IH]; intros w Hw; simpl.
  - split; [done|apply on_reaching_no_dna_message].
  - destruct (after_input_checked w line Hw) as [Hnext Hprinted].
    destruct (after_input int w line) as [printed [w'|value]]; simpl in *.
    + destruct (IH w' Hnext) as [Hout Hrest].
      destruct (run_input int w' stdin) as [rest outcome]; simpl in *.
      split; [done|]. rewrite !elem_of_app.
      pose proof (on_reaching_no_dna_message w). tauto.
    + split; [done|]. rewrite !elem_of_app.
      pose proof (on_reaching_no_dna_message w). tauto.
Qed.

Lemma get_user_input_checked stdin :
  match (get_user_input int stdin).2 with
  | inl e => e = EOFError
  | inr (value, _) => checked_input value
  end ∧
  no_dna_message ∉ (get_user_input int stdin).1.
Proof.
  unfold get_user_input.
  destruct (run_input_checked stdin (ReadDna [])) as [Hout Hprinted];
    [constructor|].
  destruct (run_input int (ReadDna []) stdin) as [written outcome]; simpl in *.
  split; [done|]. rewrite !elem_of_cons. unfold no_dna_message.
  intros H; decompose [or] H; try done; discriminate.
Qed.

End interactive_checks.

(** X11: every enzyme tuple that [get_user_input] returns has passed its
    checks, whatever was typed: the name is not empty, the pattern is not
    empty, in upper case and over {A,T,C,G}, and the cut offsets given (the
    5' one, and the 3' one if there is one) lie between 0 and the length of
    the pattern. *)
Theorem collected_enzymes_are_checked
    (int : str → option Z) stdin written dna_sequence enzymes rest :
  get_user_input int stdin
    = (written, inr ((dna_sequence, Some enzymes), rest)) →
  Forall
    (λ d, data_name d ≠ EmptyString ∧
          data_pattern d ≠ [] ∧
          upper (data_pattern d) = data_pattern d ∧
          ¬ has_invalid (data_pattern d) ∧
          0 ≤ data_cut_pos_5 d ≤ len (data_pattern d) ∧
          ∀ cut_pos_3, d.2 = Some cut_pos_3 →
                       0 ≤ cut_pos_3 ≤ len (data_pattern d))
    enzymes.
Proof.
  intros Hin. pose proof (get_user_input_checked int stdin) as [Hout _].
  rewrite Hin in Hout. simpl in Hout.
  destruct Hout as (dna & enzymes' & [= -> <-] & _ & Hall).
  eapply Forall_impl; [exact Hall|].
  intros d (Hname & (Hne & Hup & Hvalid) & Hc5 & Hc3).
  split; [done|]. split; [done|]. split; [done|]. split.
  - intros Hinv%all_valid_false. congruence.
  - split; [by apply bool_decide_eq_true in Hc5|].
    intros c3 Hd. specialize (Hc3 c3 Hd). by apply bool_decide_eq_true in Hc3.
Qed.

Lemma collected_enzymes_are_checked_witness :
  ∃ written rest,
    get_user_input int_of_digits
      (lit <$> ["ggatcc"; ""; "BamHI"; "ggatcc"; "9"; "1"; "y"; "5"; "n"; "left"])
    = (written,
       inr ((Some (lit "GGATCC"), Some [("BamHI", lit "GGATCC", 1, Some 5)]), rest)) ∧
    0 ≤ 1 ≤ len (lit "GGATCC") ∧ 0 ≤ 5 ≤ len (lit "GGATCC").
Proof.
  destruct (get_user_input int_of_digits
    (lit <$> ["ggatcc"; ""; "BamHI"; "ggatcc"; "9"; "1"; "y"; "5"; "n"; "left"]))
    as [written outcome] eqn:Hrun.
  pose proof Hrun as Hvalue. vm_compute in Hvalue. injection Hvalue as <- <-.
  do 2 eexists. split; [reflexivity|].
  pose proof (collected_enzymes_are_checked _ _ _ _ _ _ Hrun) as Hall.
  apply Forall_singleton in Hall as (_ & _ & _ & _ & Hc5 & Hc3).
  split; [exact Hc5|]. exact (Hc3 5 eq_refl).
Defined.

(** X12: whatever is typed, [get_user_input] never returns [(None, None)]
    and never prints "No DNA sequence provided!": a line is kept only when
    something is left of it after [strip], so the lines joined are not empty
    after the normalisation.  The sequence it returns is not empty and is
    already normalised, and the only exception it raises is the [EOFError]
    of [input]. *)
Theorem no_dna_branch_is_dead (int : str → option Z) stdin :
  (Printed (lit "No DNA sequence provided!") ∉ (get_user_input int stdin).1) ∧
  match (get_user_input int stdin).2 with
  | inl e => e = EOFError
  | inr (value, _) =>
      ∃ dna_sequence enzymes,
        value = (Some dna_sequence, Some enzymes) ∧
        dna_sequence ≠ [] ∧ normalize dna_sequence = dna_sequence
  end.
Proof.
  pose proof (get_user_input_checked int stdin) as [Hout Hprinted].
  split; [done|].
  destruct (get_user_input int stdin).2 as [e|[value rest]]; [done|].
  destruct Hout as (dna & enzymes & -> & [Hne Hnorm] & _). eauto.
Qed.

(** ** What [main] reports *)

Lemma digest_and_print_invalid dna_sequence d :
  all_valid (normalize dna_sequence) = false →
  digest_and_print dna_sequence d = ([], Some (ValueError dna_error)).
Proof.
  intros Hinv. destruct d as [[[nm rs] c5] c3]. unfold digest_and_print.
  digest_outcome dna_sequence rs c5 c3 nm; try congruence. by rewrite Hout.
Qed.

Lemma digest_and_print_valid dna_sequence d :
  all_valid (normalize dna_sequence) = true →
  all_valid (upper (data_pattern d)) = true →
  (data_sites (normalize dna_sequence) d = [] →
   (digest_and_print dna_sequence d).2 = Some (KeyError "recognition_sites")) ∧
  (data_sites (normalize dna_sequence) d ≠ [] →
   (digest_and_print dna_sequence d).2 = None).
Proof.
  destruct d as [[[nm rs] c5] c3]. unfold data_sites, data_pattern. simpl.
  intros Hdna' Hrs'. unfold digest_and_print.
  digest_outcome dna_sequence rs c5 c3 nm; try congruence; rewrite Hout.
  - done.
  - split; [done|]. intros _. unfold print_digest_results. simpl.
    by destruct (scan_sites _ _).
Qed.

Lemma individual_results_outcome dna_sequence enzymes_data :
  all_valid (normalize dna_sequence) = true →
  patterns_valid enzymes_data = true →
  ((individual_results dna_sequence enzymes_data).2 = None ↔
   Forall (λ d, data_sites (normalize dna_sequence) d ≠ []) enzymes_data) ∧
  ((individual_results dna_sequence enzymes_data).2
     = Some (KeyError "recognition_sites") ↔
   Exists (λ d, data_sites (normalize dna_sequence) d = []) enzymes_data) ∧
  (∀ e, (individual_results dna_sequence enzymes_data).2 = Some e →
        e = KeyError "recognition_sites").
Proof.
  intros Hdna. induction enzymes_data as [|d ds IH]; intros Hpat.
  - simpl. split; [by split|]. split; [|done]. split; [done|].
    by intros ?%Exists_nil.
  - simpl in Hpat. apply andb_true_iff in Hpat as [Hd Hds].
    destruct (IH Hds) as (IHnone & IHkey & IHonly). clear IH.
    destruct (digest_and_print_valid dna_sequence d Hdna Hd) as [Hempty Hsome].
    rewrite Forall_cons, Exists_cons. simpl.
    destruct (digest_and_print dna_sequence d) as [printed [e|]] eqn:Hprint; simpl in *.
    + destruct (decide (data_sites (normalize dna_sequence) d = [])) as [Hs|Hs].
      * specialize (Hempty Hs) as [= ->]. split; [|split].
        -- split; [done|]. by intros [? _].
        -- split; auto.
        -- by intros e [= <-].
      * by specialize (Hsome Hs).
    + destruct (decide (data_sites (normalize dna_sequence) d = [])) as [Hs|Hs];
        [by specialize (Hempty Hs)|].
      destruct (individual_results dna_sequence ds) as [more outcome]; simpl in *.
      rewrite IHnone, IHkey. split; [tauto|]. split; [tauto|done].
Qed.

Lemma checked_patterns_valid enzymes :
  Forall checked_enzyme enzymes → patterns_valid enzymes = true.
Proof.
  unfold patterns_valid. induction 1 as [|d ds Hd Hds IH]; [done|].
  simpl. rewrite IH, andb_true_r.
  destruct Hd as (_ & (_ & Hup & Hvalid) & _). by rewrite Hup.
Qed.

Lemma no_site_iff dna_sequence d :
  all_valid (normalize dna_sequence) = true →
  all_valid (upper (data_pattern d)) = true →
  find_restriction_sites dna_sequence (data_pattern d) = Return [] ↔
  data_sites (normalize dna_sequence) d = [].
Proof.
  intros Hdna Hd. rewrite find_restriction_sites_unfold, Hdna, Hd. simpl.
  unfold data_sites. split; [by intros [= ->]|by intros ->].
Qed.

(** The outcome of the statements of [main] that follow [get_user_input],
    on a sequence and enzymes it can return. *)
Lemma analyse_outcome dna_sequence enzymes :
  collected_sequence dna_sequence →
  Forall checked_enzyme enzymes →
  enzymes ≠ [] →
  let no_site d :=
    find_restriction_sites dna_sequence (data_pattern d) = Return [] in
  let outcome := analyse (Some dna_sequence, Some enzymes) in
  (has_invalid dna_sequence → outcome = ([], Some (ValueError dna_error))) ∧
  (¬ has_invalid dna_sequence →
   (outcome.2 = Some (KeyError "recognition_sites") ↔ Exists no_site enzymes) ∧
   (outcome.2 = None ↔ Forall (λ d, ¬ no_site d) enzymes) ∧
   (∀ e, outcome.2 = Some e → e = KeyError "recognition_sites")).
Proof.
  intros [Hnonempty Hnorm] Hchecked Henz no_site outcome.
  pose proof (checked_patterns_valid enzymes Hchecked) as Hpatterns.
  assert (∀ d, d ∈ enzymes → all_valid (normalize dna_sequence) = true →
               (no_site d ↔ data_sites (normalize dna_sequence) d = [])) as Hsite.
  { intros d Hd Hvalid. apply no_site_iff; [done|].
    by apply (patterns_valid_true enzymes). }
  unfold outcome, analyse.
  destruct dna_sequence as [|c dna']; [done|]. set (dna := c :: dna') in *.
  destruct enzymes as [|d enzymes']; [done|].
  assert (all_valid (normalize dna) = all_valid dna) as Hv by by rewrite Hnorm.
  rewrite <- all_valid_false, <- Hv. split.
  - intros Hinv. destruct enzymes' as [|d' enzymes''].
    + by apply digest_and_print_invalid.
    + multiple_outcome dna (d :: d' :: enzymes''); try congruence.
      * by rewrite Hout.
      * destruct Hok as [?|[? _]]; [done|congruence].
  - intros Hvalid%not_false_is_true.
    destruct (individual_results_outcome dna (d :: enzymes') Hvalid Hpatterns)
      as (Hnone & Hkey & Honly).
    assert (Exists no_site (d :: enzymes') ↔
            Exists (λ d, data_sites (normalize dna) d = []) (d :: enzymes')) as HE.
    { rewrite !Exists_exists. split; intros (x & Hx & Hs); exists x;
        (split; [done|]); by apply (Hsite x Hx Hvalid). }
    assert (Forall (λ d, ¬ no_site d) (d :: enzymes') ↔
            Forall (λ d, data_sites (normalize dna) d ≠ []) (d :: enzymes')) as HF.
    { rewrite !Forall_forall. split; intros Hall x Hx; specialize (Hall x Hx);
        by rewrite (Hsite x Hx Hvalid) in *. }
    rewrite HE, HF. clear HE HF Hsite.
    destruct enzymes' as [|d' enzymes''].
    + simpl in Hnone, Hkey, Honly.
      destruct (digest_and_print dna d) as [printed [e|]]; simpl in *; done.
    + multiple_outcome dna (d :: d' :: enzymes''); try congruence.
      rewrite Hout.
      destruct (individual_results dna (d :: d' :: enzymes'')) as [printed o].
      done.
Qed.

(** X13: what [main] reports once [get_user_input] has returned a sequence
    and at least one enzyme.  If the sequence has a character outside
    {A,T,C,G}, [main] prints the error about the DNA sequence and no result.
    Otherwise, if some enzyme has no site in the sequence, the run ends with
    the lines "Error: 'recognition_sites'" and "Please check your input and
    try again."; if every enzyme has a site, no exception leaves the [try]
    block.  The error about an invalid recognition sequence is never
    reported: the patterns were checked when they were typed. *)
Theorem main_reports (int : str → option Z) stdin written dna_sequence enzymes rest :
  get_user_input int stdin
    = (written, inr ((Some dna_sequence, Some enzymes), rest)) →
  enzymes ≠ [] →
  let no_site d :=
    find_restriction_sites dna_sequence (data_pattern d) = Return [] in
  (has_invalid dna_sequence →
   main int stdin
   = written ++ [ Printed (lit "Error: " ++ lit dna_error);
                  Printed (lit "Please check your input and try again.") ]) ∧
  (¬ has_invalid dna_sequence → Exists no_site enzymes →
   ∃ printed,
     main int stdin
     = written ++ printed
       ++ [ Printed (lit "Error: 'recognition_sites'");
            Printed (lit "Please check your input and try again.") ]) ∧
  (¬ has_invalid dna_sequence → Forall (λ d, ¬ no_site d) enzymes →
   (main_try int stdin).2 = None ∧ main int stdin = (main_try int stdin).1) ∧
  (main_try int stdin).2 ≠ Some (ValueError recognition_error).
Proof.
  intros Hin Henz no_site.
  pose proof (get_user_input_checked int stdin) as [Hchecked _].
  rewrite Hin in Hchecked. simpl in Hchecked.
  destruct Hchecked as (dna & enzymes' & [= <- <-] & Hdna & Hall).
  destruct (analyse_outcome dna_sequence enzymes Hdna Hall Henz)
    as [Hinvalid Hvalid].
  unfold main, main_try. rewrite Hin.
  destruct (analyse (Some dna_sequence, Some enzymes)) as [printed outcome] eqn:Ha.
  simpl in *. split; [|split; [|split]].
  - intros Hinv. specialize (Hinvalid Hinv) as [= -> ->]. by rewrite app_nil_r.
  - intros Hok Hex. destruct (Hvalid Hok) as (Hkey & _ & _).
    apply Hkey in Hex as ->. exists printed. by rewrite <- app_assoc.
  - intros Hok Hfa. destruct (Hvalid Hok) as (_ & Hnone & _).
    by apply Hnone in Hfa as ->.
  - intros ->.
    destruct (all_valid dna_sequence) eqn:Hv.
    + assert (¬ has_invalid dna_sequence) as Hok
        by (intros ?%all_valid_false; congruence).
      destruct (Hvalid Hok) as (_ & _ & Honly). by specialize (Honly _ eq_refl).
    + apply all_valid_false in Hv. by specialize (Hinvalid Hv) as [= _ Heq].
Qed.

Lemma main_reports_witness :
  ∃ heading,
    main int_of_digits (lit <$> ["ATCGATCG"; ""; "EcoRI"; "GAATTC"; "1"; "n"; "n"])
    = heading ++ [ Printed (lit "Error: 'recognition_sites'");
                   Printed (lit "Please check your input and try again.") ].
Proof.
  destruct (get_user_input int_of_digits
    (lit <$> ["ATCGATCG"; ""; "EcoRI"; "GAATTC"; "1"; "n"; "n"]))
    as [written outcome] eqn:Hrun.
  pose proof Hrun as Hvalue. vm_compute in Hvalue. injection Hvalue as <- <-.
  destruct (main_reports _ _ _ _ _ _ Hrun ltac:(discriminate))
    as (_ & Hkey & _).
  destruct Hkey as [printed Hmain].
  - intros Hinv%all_valid_false. vm_compute in Hinv. discriminate.
  - apply Exists_cons_hd. vm_compute. reflexivity.
  - eexists. rewrite Hmain. by rewrite app_assoc.
Defined.

(** ** A descriptor listed twice *)

Lemma increasing_ext l k :
  StronglySorted Z.lt l → StronglySorted Z.lt k →
  (∀ c, c ∈ l ↔ c ∈ k) → l = k.
Proof.
  intros Hl Hk Hmem. apply (Sorted_unique Z.le).
  - by apply increasing_Sorted_le.
  - by apply increasing_Sorted_le.
  - apply NoDup_Permutation; [by apply StronglySorted_lt_NoDup..|done].
Qed.

(** X14: listing a descriptor a second time changes nothing in the cuts of a
    multiple digest: with a descriptor of the list put in front once more,
    the outcome is the same error, or a result with the same cut list, cut
    count, fragments and lengths, and one more per-enzyme entry. *)
Theorem repeated_descriptor_adds_no_cut dna_seq enzymes_data d :
  d ∈ enzymes_data →
  match multiple_digest dna_seq enzymes_data,
        multiple_digest dna_seq (d :: enzymes_data) with
  | Return m, Return m' =>
      cut_positions m' = cut_positions m ∧
      total_cuts m' = total_cuts m ∧
      multi_fragments m' = multi_fragments m ∧
      multi_fragment_lengths m' = multi_fragment_lengths m ∧
      length (enzymes m') = S (length (enzymes m))
  | Raise msg, Raise msg' => msg = msg'
  | _, _ => False
  end.
Proof.
  intros Hd.
  assert (enzymes_data ≠ []) as Hnonempty
    by (intros ->; by apply elem_of_nil in Hd).
  assert (patterns_valid (d :: enzymes_data) = patterns_valid enzymes_data) as Hpv.
  { simpl. destruct (patterns_valid enzymes_data) eqn:Hp.
    - by rewrite (patterns_valid_true _ _ Hp Hd).
    - apply andb_false_r. }
  assert (merged_cuts (normalize dna_seq) (d :: enzymes_data)
          = merged_cuts (normalize dna_seq) enzymes_data) as Hcuts.
  { apply increasing_ext; [apply merged_cuts_increasing..|].
    intros c. rewrite !elem_of_merged_cuts. split.
    - intros (d' & [->|Hd']%elem_of_cons & Hc); eauto.
    - intros (d' & Hd' & Hc). exists d'. split; [by right|done]. }
  pose proof (multiple_digest_cases dna_seq (d :: enzymes_data)) as Hmore.
  cbv zeta in Hmore. rewrite Hpv, Hcuts in Hmore.
  multiple_outcome dna_seq enzymes_data;
    destruct Hmore as [(Hne' & Hdna' & Hout') |
                      [(Hne' & Hdna' & Hpat' & Hout') | (Hok' & Hout')]];
    rewrite Hout, Hout'; simpl; try done; try congruence;
    try (destruct Hok as [?|[? ?]]; congruence);
    try (destruct Hok' as [?|[? ?]]; congruence).
Qed.

Lemma repeated_descriptor_adds_no_cut_witness :
  ∃ m m',
    multiple_digest (lit "GGATCCGGATCC")
      [("a", lit "GGATCC", 1, None); ("b", lit "CC", 1, None)] = Return m ∧
    multiple_digest (lit "GGATCCGGATCC")
      [("b", lit "CC", 1, None); ("a", lit "GGATCC", 1, None); ("b", lit "CC", 1, None)]
      = Return m' ∧
    cut_positions m' = cut_positions m ∧ multi_fragments m' = multi_fragments m.
Proof.
  pose proof (repeated_descriptor_adds_no_cut (lit "GGATCCGGATCC")
    [("a", lit "GGATCC", 1, None); ("b", lit "CC", 1, None)]
    ("b", lit "CC", 1, None)) as Hsame.
  do 2 eexists. split; [vm_compute; reflexivity|].
  split; [vm_compute; reflexivity|].
  destruct Hsame as (Hcuts & _ & Hfrags & _).
  - apply elem_of_cons. right. apply list_elem_of_singleton. reflexivity.
  - split; [exact Hcuts|exact Hfrags].
Defined.

(** ** The sequence [get_user_input] reads *)

Section reading.
Variable int : str → option Z.

Lemma after_input_sequence w line dna_sequence :
  waiting_sequence w = Some dna_sequence →
  match (after_input int w line).2 with
  | inl w' => waiting_sequence w' = Some dna_sequence
  | inr value => value.1 = Some dna_sequence
  end.
Proof.
  destruct w; simpl; intros [= ->]; try done;
    repeat (case_bool_decide || case_match); simpl in *; simplify_eq; done.
Qed.

Lemma run_input_sequence stdin w dna_sequence :
  waiting_sequence w = Some dna_sequence →
  match (run_input int w stdin).2 with
  | inl _ => True
  | inr (value, _) => value.1 = Some dna_sequence
  end.
Proof.
  revert w. induction stdin as [|line stdin IH]; intros w Hw; [done|]. simpl.
  pose proof (after_input_sequence w line dna_sequence Hw) as Hnext.
  destruct (after_input int w line) as [printed [w'|value]]; simpl in *; [|done].
  specialize (IH w' Hnext).
  by destruct (run_input int w' stdin) as [rest outcome].
Qed.

Lemma run_input_cons_outcome w line stdin :
  (run_input int w (line :: stdin)).2
  = match (after_input int w line).2 with
    | inl w' => (run_input int w' stdin).2
    | inr value => inr (value, stdin)
    end.
Proof.
  cbn [run_input]. destruct (after_input int w line) as [printed [w'|value]];
    [|reflexivity].
  cbn [snd]. destruct (run_input int w' stdin) as [rest outcome]. reflexivity.
Qed.

Lemma after_input_dna_skip line :
  strip line = [] →
  (after_input int (ReadDna []) line).2 = inl (ReadDna []).
Proof. intros Hblank. unfold after_input. by rewrite !bool_decide_eq_true_2. Qed.

Lemma after_input_dna_end dna_lines line :
  strip line = [] → dna_lines ≠ [] → normalize (concat dna_lines) ≠ [] →
  (after_input int (ReadDna dna_lines) line).2
  = inl (ReadName (normalize (concat dna_lines)) []).
Proof.
  intros Hblank Hlines Hdna. unfold after_input.
  rewrite (bool_decide_eq_true_2 _ Hblank), (bool_decide_eq_false_2 _ Hlines).
  cbn [negb andb]. by rewrite (bool_decide_eq_false_2 _ Hdna).
Qed.

Lemma after_input_dna_line dna_lines line :
  strip line ≠ [] →
  (after_input int (ReadDna dna_lines) line).2
  = inl (ReadDna (dna_lines ++ [strip line])).
Proof.
  intros Hline. unfold after_input.
  by rewrite !(bool_decide_eq_false_2 _ Hline).
Qed.

Lemma run_input_dna_lines stdin dna_lines :
  Forall has_visible dna_lines →
  match (run_input int (ReadDna dna_lines) stdin).2 with
  | inl _ => True
  | inr (value, _) =>
      value.1
      = Some (normalize
                (concat (dna_lines
                         ++ (strip <$> until_blank
                               (if decide (dna_lines = [])
                                then skip_blank stdin else stdin)))))
  end.
Proof.
  revert dna_lines. induction stdin as [|line stdin IH]; intros dna_lines Hvis;
    [done|].
  rewrite run_input_cons_outcome.
  destruct (decide (strip line = [])) as [Hblank|Hline].
  - destruct (decide (dna_lines = [])) as [->|Hlines].
    + rewrite after_input_dna_skip by done. cbn [skip_blank].
      rewrite (bool_decide_eq_true_2 _ Hblank). by apply (IH []).
    + rewrite after_input_dna_end by auto using normalize_visible.
      cbn [until_blank]. rewrite (bool_decide_eq_true_2 _ Hblank).
      rewrite fmap_nil, app_nil_r.
      apply (run_input_sequence stdin (ReadName (normalize (concat dna_lines)) [])).
      reflexivity.
  - rewrite after_input_dna_line by done.
    assert (Forall has_visible (dna_lines ++ [strip line])) as Hvis'.
    { apply Forall_app. split; [done|]. apply Forall_singleton.
      by apply strip_visible. }
    specialize (IH (dna_lines ++ [strip line]) Hvis').
    rewrite decide_False in IH by (by destruct dna_lines).
    rewrite <- app_assoc in IH.
    assert (until_blank (if decide (dna_lines = [])
                         then skip_blank (line :: stdin) else line :: stdin)
            = line :: until_blank stdin) as ->; [|exact IH].
    destruct (decide (dna_lines = []));
      do 2 (cbn [skip_blank until_blank];
            rewrite ?(bool_decide_eq_false_2 _ Hline));
      reflexivity.
Qed.

End reading.

(** X15: the sequence [get_user_input] returns is read as follows: the
    lines that are blank after [strip] are skipped up to the first line that
    is not, the lines from there up to the next blank one are stripped and
    joined, and the result is normalised.  Nothing typed later changes
    it. *)
Theorem sequence_is_lines_until_blank
    (int : str → option Z) stdin written dna_sequence enzymes rest :
  get_user_input int stdin = (written, inr ((dna_sequence, enzymes), rest)) →
  dna_sequence
  = Some (normalize (concat (strip <$> until_blank (skip_blank stdin)))).
Proof.
  intros Hin. unfold get_user_input in Hin.
  pose proof (run_input_dna_lines int stdin [] (Forall_nil_2 _)) as Hlines.
  destruct (run_input int (ReadDna []) stdin) as [printed outcome].
  injection Hin as _ ->. exact Hlines.
Qed.

Lemma sequence_is_lines_until_blank_witness :
  ∃ written enzymes rest,
    get_user_input int_of_digits
      (lit <$> [""; "  gg atcc "; "ggatcc"; ""; "BamHI"; "ggatcc"; "1"; "n"; "n"])
    = (written, inr ((Some (lit "GGATCCGGATCC"), enzymes), rest)).
Proof.
  destruct (get_user_input int_of_digits
    (lit <$> [""; "  gg atcc "; "ggatcc"; ""; "BamHI"; "ggatcc"; "1"; "n"; "n"]))
    as [written [e|[[dna enzymes] rest]]] eqn:Hrun;
    [vm_compute in Hrun; discriminate|].
  rewrite (sequence_is_lines_until_blank _ _ _ _ _ _ Hrun).
  by exists written, enzymes, rest.
Defined.
